(** * project9-reviews: the review site of [server.js]

    A shallow embedding of the Express application of
    [src/project9-reviews/server.js]: the session options, the CSRF guard,
    the route handlers and the two Mongoose models they call.

    - JavaScript strings that come from the client are lists of UTF-16
      code units; string constants of the source (view names, messages,
      URLs, property names) are Rocq strings.
    - The handlers are written in a state-and-exception monad whose state
      holds the two collections, the session object of the request and an
      oracle that tells which awaited call to a store rejects (the
      connection, the server). An identifier that Mongoose cannot cast is
      refused before the call, whatever the oracle says.
    - What the source takes from the language and from its packages (the
      coercion of a string to a number, the cast of a string to an
      ObjectId, bcrypt, the token generator of csurf) are the operations
      of the class [Platform]; the properties hold for every platform.
    - [models/User.js] and [models/Review.js] are not among the sources:
      the schema rules the handlers rely on follow the data model of the
      specification and are marked as such. *)

From Stdlib Require Import Ascii NArith ZArith QArith.
From stdpp Require Import base option list strings gmap sorting.

Open Scope string_scope.
Open Scope Z_scope.

(** ** JavaScript values *)

(** A JavaScript string: its UTF-16 code units. *)
Abbreviation JSString := (list N).

(** The JavaScript string of an ASCII literal. *)
Definition js (s : string) : JSString :=
  N_of_ascii <$> String.list_ascii_of_string s.

(** A property that may be [undefined] (a form field the client did not
    send, a property that is not set). *)
Abbreviation JSField := (option JSString).

(** [!x] for a value that is [undefined] or a string: [undefined] and the
    empty string are the two falsy ones. *)
Definition falsy (x : JSField) : bool :=
  match x with
  | None => true
  | Some [] => true
  | Some (_ :: _) => false
  end.

(** [a || b] on such values. *)
Definition js_or (a b : JSField) : JSField := if falsy a then b else a.

(** WhiteSpace and LineTerminator code points of ECMAScript, the ones
    [String.prototype.trim] strips. *)
Definition is_white_space (c : N) : bool :=
  ((9 <=? c) && (c <=? 13) || (c =? 32) || (c =? 160) || (c =? 5760)
   || (8192 <=? c) && (c <=? 8202) || (c =? 8232) || (c =? 8233)
   || (c =? 8239) || (c =? 8287) || (c =? 12288) || (c =? 65279))%N.

Fixpoint trim_start (s : JSString) : JSString :=
  match s with
  | c :: s' => if is_white_space c then trim_start s' else s
  | [] => []
  end.

(** [s.trim()] *)
Definition trim (s : JSString) : JSString :=
  reverse (trim_start (reverse (trim_start s))).

(** A JavaScript number, as far as comparisons see it: every finite double
    is a rational. *)
Inductive JSNumber :=
| NaN
| Num (q : Q)
| PosInf
| NegInf.

(** [a < b] on numbers; a comparison with [NaN] is false. *)
Definition js_lt (a b : JSNumber) : bool :=
  match a, b with
  | NaN, _ | _, NaN => false
  | Num p, Num q => negb (Qle_bool q p)
  | NegInf, NegInf => false
  | NegInf, _ => true
  | _, NegInf => false
  | PosInf, _ => false
  | Num _, PosInf => true
  end.

(** [a > b] *)
Definition js_gt (a b : JSNumber) : bool := js_lt b a.

(** The rational is a whole number. *)
Definition is_integer (q : Q) : bool :=
  (Qnum q mod Zpos (Qden q) =? 0)%Z.

(** The lower-case form of a code unit, for the letters A to Z. *)
Definition lower (c : N) : N :=
  if ((65 <=? c) && (c <=? 90))%N then (c + 32)%N else c.

(** A plain object with string properties, in insertion order. *)
Abbreviation JSObject := (list (string * JSString)).

Fixpoint js_get (o : JSObject) (k : string) : JSField :=
  match o with
  | [] => None
  | (k', v) :: o' => if String.eqb k' k then Some v else js_get o' k
  end.

Definition js_keys (o : JSObject) : list string := fst <$> o.

(** What the source takes from the language and from its packages. *)
Class Platform := {
  (** the coercion of a string to a number ([rating < 1]) *)
  ToNumber : JSString → JSNumber;
  (** whether Mongoose can cast the string to an ObjectId *)
  castObjectId : JSString → bool;
  (** bcrypt, behind [models/User.js] *)
  bcrypt_hash : JSString → JSString;
  bcrypt_compare : JSString → JSString → bool;
  (** the token generator of csurf *)
  tokens_create : JSString → JSString;
  tokens_verify : JSString → JSString → bool
}.

(** ** Session options (lines 31 to 40) *)

Set Warnings "-register-all".

(** The values an options object holds. *)
Inductive JSValue :=
| VUndefined
| VBool (b : bool)
| VNumber (n : Z)
| VString (s : string)
| VObject (props : list (string * JSValue)).

Fixpoint prop (props : list (string * JSValue)) (k : string) : JSValue :=
  match props with
  | [] => VUndefined
  | (k', v) :: props' => if String.eqb k' k then v else prop props' k
  end.

Definition get (v : JSValue) (k : string) : JSValue :=
  match v with
  | VObject props => prop props k
  | _ => VUndefined
  end.

(** [process.env]: the variables that are set. *)
Abbreviation ProcessEnv := (list (string * string)).

Fixpoint env_get (env : ProcessEnv) (k : string) : option string :=
  match env with
  | [] => None
  | (k', v) :: env' => if String.eqb k' k then Some v else env_get env' k
  end.

Definition env_value (env : ProcessEnv) (k : string) : JSValue :=
  match env_get env k with
  | Some v => VString v
  | None => VUndefined
  end.

(** [process.env.NODE_ENV === 'production'] *)
Definition is_production (env : ProcessEnv) : bool :=
  bool_decide (env_get env "NODE_ENV" = Some "production").

(** The object passed to [session(...)]. *)
Definition session_options (env : ProcessEnv) : JSValue :=
  VObject [
    ("secret", env_value env "SESSION_SECRET");
    ("resave", VBool false);
    ("saveUninitialized", VBool false);
    ("cookie", VObject [
       ("httpOnly", VBool true);
       ("secure", VBool (is_production env));
       ("maxAge", VNumber (1000 * 60 * 60))])
  ].

Definition cookie_options (env : ProcessEnv) : JSValue :=
  get (session_options env) "cookie".

(** A cookie is same-site when its [sameSite] option is [true] or one of
    the strings strict and lax. *)
Definition same_site (cookie : JSValue) : bool :=
  match get cookie "sameSite" with
  | VBool true => true
  | VString s => String.eqb s "strict" || String.eqb s "lax"
  | _ => false
  end.

(** ** Data model *)

Abbreviation ObjectId := (list N).

Module UserDoc.
Record t := mk {
  _id : ObjectId;
  username : JSString;
  email : JSString;
  password : JSString
}.
End UserDoc.

Module ReviewDoc.
Record t := mk {
  _id : ObjectId;
  user : JSField;
  rating : JSNumber;
  comment : JSString;
  createdAt : Z
}.

(** A review with its [user] path populated. *)
Record populated := mk_populated {
  doc : t;
  author : option UserDoc.t
}.
End ReviewDoc.

(** The two collections. *)
Record Db := mkDb {
  users : list UserDoc.t;
  reviews : list ReviewDoc.t
}.

(** [req.session]: its [user] property is [undefined] or the identity
    object written by signup and login. *)
Record Session := mkSession {
  user : option JSObject
}.

(** What the world outside decides for one request: the clock, the
    identifier of a document created during it, the secret csurf draws
    when the request carries none, and which of the store calls fail
    (one entry per awaited call, in order; a call beyond the list
    succeeds). *)
Record Env := mkEnv {
  now : Z;
  fresh_id : ObjectId;
  fresh_secret : JSString;
  faults : list bool
}.

(** ** The handler monad *)

Inductive Exn :=
| MongoError
| ValidationError
| CastError.

Inductive Outcome (A : Type) :=
| returned (a : A)
| thrown (e : Exn).
Arguments returned {A} a.
Arguments thrown {A} e.

(** The state a handler runs in: the collections, [req.session], whether
    the session was destroyed, the cookies [res.clearCookie] was called
    for, and the rest of the oracle. *)
Record St := mkSt {
  db : Db;
  sess : Session;
  destroyed : bool;
  cleared : list string;
  pending : list bool
}.

Definition M (A : Type) : Type := St → Outcome A * St.

#[global] Instance M_ret : MRet M := λ A a s, (returned a, s).

#[global] Instance M_bind : MBind M := λ A B f m s,
  match m s with
  | (returned a, s') => f a s'
  | (thrown e, s') => (thrown e, s')
  end.

Definition throw {A} (e : Exn) : M A := λ s, (thrown e, s).

(** [try { body } catch (err) { handler }] *)
Definition try_catch {A} (body : M A) (handler : Exn → M A) : M A := λ s,
  match body s with
  | (returned a, s') => (returned a, s')
  | (thrown e, s') => handler e s'
  end.

Definition with_db (d : Db) (s : St) : St :=
  mkSt d (sess s) (destroyed s) (cleared s) (pending s).

Definition with_pending (fs : list bool) (s : St) : St :=
  mkSt (db s) (sess s) (destroyed s) (cleared s) fs.

Definition get_db : M Db := λ s, (returned (db s), s).

Definition put_db (d : Db) : M unit := λ s, (returned tt, with_db d s).

Definition get_session : M Session := λ s, (returned (sess s), s).

(** [req.session.user = o] *)
Definition set_session_user (o : JSObject) : M unit := λ s,
  (returned tt,
   mkSt (db s) (mkSession (Some o)) (destroyed s) (cleared s) (pending s)).

(** One awaited call to the store: it rejects when the oracle says so. *)
Definition store_call : M unit := λ s,
  match pending s with
  | [] => (returned tt, s)
  | false :: fs => (returned tt, with_pending fs s)
  | true :: fs => (thrown MongoError, with_pending fs s)
  end.

(** [req.session.destroy(cb)]: the session store removes the session and
    calls back with the error, if it had one; the session stays in the
    store then. *)
Definition session_destroy : M (option Exn) := λ s,
  match pending s with
  | true :: fs => (returned (Some MongoError), with_pending fs s)
  | false :: fs =>
      (returned None, mkSt (db s) (sess s) true (cleared s) fs)
  | [] => (returned None, mkSt (db s) (sess s) true (cleared s) [])
  end.

(** [res.clearCookie(name)] *)
Definition clearCookie (name : string) : M unit := λ s,
  (returned tt,
   mkSt (db s) (sess s) (destroyed s) (cleared s ++ [name]) (pending s)).

(** ** The models *)

Module User.
Section ops.
Context `{Platform}.

(** [User.findOne(q)]: the first document the query matches. *)
Definition findOne (q : UserDoc.t → bool) : M (option UserDoc.t) :=
  store_call;;
  d ← get_db;
  mret (List.find q (users d)).

(** [{ $or: [{ email }, { username }] }] *)
Definition by_email_or_username (email username : JSString)
    (u : UserDoc.t) : bool :=
  bool_decide (UserDoc.email u = email)
  || bool_decide (UserDoc.username u = username).

(** [{ email }] *)
Definition by_email (email : JSString) (u : UserDoc.t) : bool :=
  bool_decide (UserDoc.email u = email).

(** [new User({ username, email, password })]: the document gets its
    identifier when it is built. *)
Definition new (e : Env) (username email password : JSString) : UserDoc.t :=
  UserDoc.mk (fresh_id e) username email password.

(** Modelled from the spec: [models/User.js] is not among the sources.
    Saving stores the password as a hash, and fails when the username or
    the email is already taken. *)
Definition save (u : UserDoc.t) : M unit :=
  store_call;;
  d ← get_db;
  if existsb (by_email_or_username (UserDoc.email u) (UserDoc.username u))
       (users d)
  then throw MongoError
  else
    put_db (mkDb
      (users d ++ [UserDoc.mk (UserDoc._id u) (UserDoc.username u)
                     (UserDoc.email u) (bcrypt_hash (UserDoc.password u))])
      (reviews d)).

(** Modelled from the spec: [models/User.js] is not among the sources.
    The candidate is verified against the stored hash. *)
Definition comparePassword (u : UserDoc.t) (candidate : JSString) : M bool :=
  mret (bcrypt_compare (UserDoc.password u) candidate).

End ops.
End User.

Module Review.
Section ops.
Context `{Platform}.

(** Modelled from the spec: [models/Review.js] is not among the sources.
    [new Review({ user, rating, comment })] casts the rating to a number
    and stamps the review with its creation time. *)
Definition new (e : Env) (user : JSField) (rating comment : JSString)
    : ReviewDoc.t :=
  ReviewDoc.mk (fresh_id e) user (ToNumber rating) comment (now e).

(** Modelled from the spec: [models/Review.js] is not among the sources.
    The rating is an integer that must satisfy 1 ≤ rating ≤ 5, and the
    comment is required (non-empty). *)
Definition validate (r : ReviewDoc.t) : bool :=
  match ReviewDoc.rating r with
  | Num q => Qle_bool 1 q && Qle_bool q 5 && is_integer q
  | _ => false
  end
  && negb (bool_decide (ReviewDoc.comment r = [])).

(** [review.save()]: Mongoose validates the document, then writes it. *)
Definition save (r : ReviewDoc.t) : M unit :=
  if validate r then
    store_call;;
    d ← get_db;
    put_db (mkDb (users d) (reviews d ++ [r]))
  else throw ValidationError.

(** [.populate('user')] *)
Definition populate (us : list UserDoc.t) (r : ReviewDoc.t)
    : ReviewDoc.populated :=
  ReviewDoc.mk_populated r
    (id ← ReviewDoc.user r;
     List.find (λ u, bool_decide (UserDoc._id u = id)) us).

(** The order of [{ createdAt: -1 }]. *)
Definition newest_first : relation ReviewDoc.t :=
  λ a b, ReviewDoc.createdAt b ≤ ReviewDoc.createdAt a.

#[global] Instance newest_first_dec a b : Decision (newest_first a b).
Proof. unfold newest_first. apply _. Defined.

(** [.sort({ createdAt: -1 })] *)
Definition sort (l : list ReviewDoc.t) : list ReviewDoc.t :=
  merge_sort newest_first l.

(** [Review.find().populate('user').sort({ createdAt: -1 })] *)
Definition find_populate_sort : M (list ReviewDoc.populated) :=
  store_call;;
  d ← get_db;
  mret (populate (users d) <$> sort (reviews d)).

(** The string names an ObjectId: Mongoose can cast it. The identifier
    of a stored review is an ObjectId, so its string is always one. *)
Definition is_ObjectId (rs : list ReviewDoc.t) (id : JSString) : bool :=
  castObjectId id || existsb (λ r, bool_decide (ReviewDoc._id r = id)) rs.

(** [Review.findById(id).populate('user')]: Mongoose casts the id before
    it asks the store, and rejects with a CastError, without a call, when
    the string is no ObjectId. *)
Definition findById_populate (id : JSString)
    : M (option ReviewDoc.populated) :=
  d ← get_db;
  if is_ObjectId (reviews d) id then
    store_call;;
    d ← get_db;
    mret (populate (users d)
            <$> List.find (λ r, bool_decide (ReviewDoc._id r = id))
                  (reviews d))
  else throw CastError.

End ops.
End Review.

(** ** Requests and responses *)

Inductive Method := GET | HEAD | POST | PUT | PATCH | DELETE | OPTIONS.

(** A request as the body parser and the cookie parser leave it; [path]
    holds the non-empty segments of the URL path. Form fields are strings
    (the arrays and objects that the extended parser builds from bracketed
    field names are left out). *)
Record Request := mkRequest {
  method : Method;
  path : list JSString;
  body : gmap string JSString;
  query : gmap string JSString;
  headers : gmap string JSString;
  cookies : gmap string JSString
}.

(** The locals object handed to a view. *)
Inductive Locals :=
| locals_error (error : option string)
| locals_reviews (reviews : list ReviewDoc.populated)
| locals_review (review : ReviewDoc.populated).

Inductive Response :=
| render (view : string) (locals : Locals)
| redirect (url : string)
| send (text : string)
(** the error csurf raises, answered by the default error handler *)
| forbidden
(** no route of the application matched *)
| no_route.

(** The string of a field that was tested to be set. *)
Definition str (x : JSField) : JSString := default [] x.

(** ** Route handlers *)

Section Handlers.
Context `{Platform}.

(** [app.get('/')] *)
Definition get_home : M Response :=
  try_catch
    (reviews ← Review.find_populate_sort;
     mret (render "index" (locals_reviews reviews)))
    (λ err, mret (send "리뷰 목록을 불러오는 중 오류가 발생했습니다.")).

(** [app.get('/signup')] *)
Definition get_signup : M Response :=
  mret (render "signup" (locals_error None)).

(** [app.post('/signup')] *)
Definition post_signup (e : Env) (body : gmap string JSString) : M Response :=
  let username := body !! "username" in
  let email := body !! "email" in
  let password := body !! "password" in
  let confirmPassword := body !! "confirmPassword" in
  if falsy username || falsy email || falsy password || falsy confirmPassword
  then mret (render "signup" (locals_error (Some "모든 필드를 입력해주세요.")))
  else if negb (bool_decide (password = confirmPassword))
  then mret (render "signup" (locals_error (Some "비밀번호가 일치하지 않습니다.")))
  else
    try_catch
      (existingUser ← User.findOne
         (User.by_email_or_username (str email) (str username));
       match existingUser with
       | Some _ =>
           mret (render "signup" (locals_error (Some "이미 존재하는 사용자입니다.")))
       | None =>
           let user := User.new e (str username) (str email) (str password) in
           User.save user;;
           set_session_user
             [("id", UserDoc._id user);
              ("username", UserDoc.username user);
              ("email", UserDoc.email user)];;
           mret (redirect "/")
       end)
      (λ err,
         mret (render "signup"
                 (locals_error (Some "회원가입 중 오류가 발생했습니다.")))).

(** [app.get('/login')] *)
Definition get_login : M Response :=
  mret (render "login" (locals_error None)).

(** [app.post('/login')] *)
Definition post_login (body : gmap string JSString) : M Response :=
  let email := body !! "email" in
  let password := body !! "password" in
  if falsy email || falsy password
  then mret (render "login" (locals_error (Some "모든 필드를 입력해주세요.")))
  else
    try_catch
      (found ← User.findOne (User.by_email (str email));
       match found with
       | None =>
           mret (render "login"
                   (locals_error (Some "이메일 또는 비밀번호가 올바르지 않습니다.")))
       | Some user =>
           isMatch ← User.comparePassword user (str password);
           if negb isMatch
           then
             mret (render "login"
                     (locals_error (Some "이메일 또는 비밀번호가 올바르지 않습니다.")))
           else
             set_session_user
               [("id", UserDoc._id user);
                ("username", UserDoc.username user);
                ("email", UserDoc.email user)];;
             mret (redirect "/")
       end)
      (λ err,
         mret (render "login" (locals_error (Some "로그인 중 오류가 발생했습니다.")))).

(** [app.get('/reviews/new')] *)
Definition get_reviews_new : M Response :=
  s ← get_session;
  match user s with
  | None => mret (redirect "/login")
  | Some _ => mret (render "new" (locals_error None))
  end.

(** [app.post('/reviews/new')] *)
Definition post_reviews_new (e : Env) (body : gmap string JSString)
    : M Response :=
  s ← get_session;
  match user s with
  | None => mret (redirect "/login")
  | Some session_user =>
      let rating := body !! "rating" in
      let comment := body !! "comment" in
      if falsy rating || falsy comment
      then mret (render "new" (locals_error (Some "모든 필드를 입력해주세요.")))
      else if js_lt (ToNumber (str rating)) (Num 1)
              || js_gt (ToNumber (str rating)) (Num 5)
      then mret (render "new" (locals_error (Some "평점은 1에서 5 사이여야 합니다.")))
      else
        try_catch
          (let review :=
             Review.new e (js_get session_user "id") (str rating)
               (trim (str comment)) in
           Review.save review;;
           mret (redirect "/"))
          (λ err,
             mret (render "new"
                     (locals_error (Some "리뷰 작성 중 오류가 발생했습니다."))))
  end.

(** [app.get('/reviews/:id')] *)
Definition get_reviews_id (reviewId : JSString) : M Response :=
  try_catch
    (found ← Review.findById_populate reviewId;
     match found with
     | None => mret (send "리뷰를 찾을 수 없습니다.")
     | Some review => mret (render "detail" (locals_review review))
     end)
    (λ err, mret (send "리뷰 상세 정보를 불러오는 중 오류가 발생했습니다.")).

(** [app.get('/logout')] *)
Definition get_logout : M Response :=
  err ← session_destroy;
  match err with
  | Some _ => mret (redirect "/")
  | None =>
      clearCookie "connect.sid";;
      mret (redirect "/login")
  end.

(** ** The application *)

(** The methods csurf does not check ([ignoreMethods], not overridden by
    the source). *)
Definition csrf_ignored (m : Method) : bool :=
  match m with
  | GET | HEAD | OPTIONS => true
  | _ => false
  end.

(** Where csurf reads the submitted token. *)
Definition csrf_value (req : Request) : JSField :=
  js_or (body req !! "_csrf")
    (js_or (query req !! "_csrf")
       (js_or (headers req !! "csrf-token")
          (js_or (headers req !! "xsrf-token")
             (js_or (headers req !! "x-csrf-token")
                (headers req !! "x-xsrf-token"))))).

(** [csrf({ cookie: true })] keeps its secret in the cookie [_csrf] and
    draws one when the request has none. *)
Definition csrf_secret (req : Request) (e : Env) : JSString :=
  default (fresh_secret e) (cookies req !! "_csrf").

Definition csrf_verify (secret : JSString) (value : JSField) : bool :=
  negb (falsy value) && tokens_verify secret (str value).

(** [app.use(csrf({ cookie: true }))]: a request that fails the check
    never reaches [next]. *)
Definition csrf (req : Request) (e : Env) (next : M Response) : M Response :=
  if negb (csrf_ignored (method req))
     && negb (csrf_verify (csrf_secret req e) (csrf_value req))
  then mret forbidden
  else next.

Definition is_get (m : Method) : bool :=
  match m with
  | GET | HEAD => true
  | _ => false
  end.

Definition is_post (m : Method) : bool :=
  match m with
  | POST => true
  | _ => false
  end.

(** Express compares a path with a route without regard to the case of
    the letters (the source does not enable case sensitive routing). *)
Definition matches (literal : string) (segment : JSString) : bool :=
  bool_decide (lower <$> segment = lower <$> js literal).

(** The routes, tried in the order of their registration. *)
Definition routes (req : Request) (e : Env) : M Response :=
  let m := method req in
  match path req with
  | [] => if is_get m then get_home else mret no_route
  | [a] =>
      if matches "signup" a then
        if is_get m then get_signup
        else if is_post m then post_signup e (body req)
        else mret no_route
      else if matches "login" a then
        if is_get m then get_login
        else if is_post m then post_login (body req)
        else mret no_route
      else if matches "logout" a then
        if is_get m then get_logout else mret no_route
      else mret no_route
  | [a; b] =>
      if matches "reviews" a then
        if matches "new" b then
          if is_get m then get_reviews_new
          else if is_post m then post_reviews_new e (body req)
          else mret no_route
        else if is_get m then get_reviews_id b
        else mret no_route
      else mret no_route
  | _ => mret no_route
  end.

(** The middleware chain in front of the routes: the session is attached,
    then csurf checks the request. (Lines 47 to 51 only read the session
    to fill [res.locals] for the views.) *)
Definition app (req : Request) (e : Env) : M Response :=
  csrf req e (routes req e).

(** The state a request starts in. *)
Definition start (s : Session) (d : Db) (e : Env) : St :=
  mkSt d s false [] (faults e).

(** What the session store holds for the client after the request. *)
Definition session_after (st : St) : option Session :=
  if destroyed st then None else Some (sess st).

End Handlers.

(** ** Vocabulary of the properties *)

(** The next call to a store is the one that fails. *)
Definition call_fails (fs : list bool) : bool :=
  match fs with
  | true :: _ => true
  | _ => false
  end.

(** The rating is a number from 1 to 5. *)
Definition in_range (n : JSNumber) : bool :=
  match n with
  | Num q => Qle_bool 1 q && Qle_bool q 5
  | _ => false
  end.

(** The rating is a whole number. *)
Definition integral (n : JSNumber) : bool :=
  match n with
  | Num q => is_integer q
  | _ => false
  end.

(** The request is for the route with these segments, whatever the case
    of its letters. *)
Definition route_is (segments : list string) (req : Request) : Prop :=
  fmap lower <$> path req = js <$> segments.

(** A submission as the data model wants it: the rating is a number from
    1 to 5, and something is left of the comment after trimming. *)
Definition acceptable `{Platform} (body : gmap string JSString) : bool :=
  match body !! "rating", body !! "comment" with
  | Some rating, Some comment =>
      in_range (ToNumber rating) && negb (bool_decide (trim comment = []))
  | _, _ => false
  end.

(** The identity of a user, as a session holds it. *)
Definition identity (u : UserDoc.t) : JSObject :=
  [("id", UserDoc._id u);
   ("username", UserDoc.username u);
   ("email", UserDoc.email u)].

(** A session holds no identity, or an object with exactly the three
    properties of one. *)
Definition session_ok (s : Session) : Prop :=
  match user s with
  | None => True
  | Some o => js_keys o = ["id"; "username"; "email"]
  end.

(** What a handler may do to the session: leave it, or write the identity
    of a user. *)
Definition session_step (st st' : St) : Prop :=
  sess st' = sess st ∨ ∃ u, user (sess st') = Some (identity u).

(** Handling the request changes what is stored: a collection, or the
    session of the client. *)
Definition changes_state `{Platform} (req : Request) (e : Env) (st : St)
    : Prop :=
  db (snd (routes req e st)) ≠ db st
  ∨ session_after (snd (routes req e st)) ≠ session_after st.

(** The guard, had it covered every request that changes the state. *)
Definition guards_every_state_change `{Platform} : Prop :=
  ∀ req e st,
    changes_state req e st →
    csrf_verify (csrf_secret req e) (csrf_value req) = false →
    app req e st = (returned forbidden, st).

(** A platform to run the handlers on: numbers are read from strings of
    decimal digits, an ObjectId is a string of 24 hexadecimal digits, a
    hash is the password behind a marker, a token is the secret itself. *)
Fixpoint digits (acc : Z) (s : JSString) : JSNumber :=
  match s with
  | [] => Num (inject_Z acc)
  | c :: s' =>
      if ((48 <=? c) && (c <=? 57))%N
      then digits (10 * acc + (Z.of_N c - 48)) s'
      else NaN
  end.

Definition is_hex (c : N) : bool :=
  ((48 <=? c) && (c <=? 57) || (65 <=? c) && (c <=? 70)
   || (97 <=? c) && (c <=? 102))%N.

Definition sample_platform : Platform := {|
  ToNumber := digits 0;
  castObjectId := λ s, bool_decide (length s = 24%nat) && forallb is_hex s;
  bcrypt_hash := λ p, (js "$2b$" ++ p)%list;
  bcrypt_compare := λ h p, bool_decide (h = (js "$2b$" ++ p)%list);
  tokens_create := λ secret, secret;
  tokens_verify := λ secret token, bool_decide (secret = token)
|}.

Definition ann_id : ObjectId := js "64a000000000000000000001".

Definition older_id : ObjectId := js "64b000000000000000000001".

Definition newer_id : ObjectId := js "64b000000000000000000002".

Definition next_id : ObjectId := js "64c000000000000000000001".

Definition ann : UserDoc.t :=
  UserDoc.mk ann_id (js "ann") (js "a@x.com") (js "$2b$pw1").

Definition ann_session : Session :=
  mkSession (Some [("id", ann_id); ("username", js "ann");
                   ("email", js "a@x.com")]).

Definition one_user : Db := mkDb [ann] [].

Definition older : ReviewDoc.t :=
  ReviewDoc.mk older_id (Some ann_id) (Num 4) (js "fine") 100.

Definition newer : ReviewDoc.t :=
  ReviewDoc.mk newer_id (Some ann_id) (Num 2) (js "meh") 200.

Definition two_reviews : Db := mkDb [ann] [older; newer].

Definition quiet : Env := mkEnv 1000 next_id (js "s3cr3t") [].

Definition failing : Env := mkEnv 1000 next_id (js "s3cr3t") [true].

Definition form (fields : list (string * string)) : gmap string JSString :=
  list_to_map (prod_map id js <$> fields).

Definition request (m : Method) (segments : list string)
    (fields : list (string * string)) : Request :=
  mkRequest m (js <$> segments) (form fields) ∅ ∅ ∅.

(** ** The rest of the application *)

(** Lines 47 to 51: what every view finds in [res.locals]. *)
Record ResLocals := mkResLocals {
  csrfToken : JSString;
  currentUser : option JSObject
}.

(** [req.csrfToken()] makes a token from the secret of the request. *)
Definition locals_middleware `{Platform} (req : Request) (e : Env)
    (s : Session) : ResLocals :=
  mkResLocals (tokens_create (csrf_secret req e)) (user s).

(** The session cookie comes back with a later request: it was issued
    less than its [maxAge] ago, and a cookie marked [secure] travels over
    an encrypted connection only. *)
Definition cookie_returns (penv : ProcessEnv) (issued : Z) (tls : bool)
    (e : Env) : bool :=
  match get (cookie_options penv) "maxAge" with
  | VNumber age => now e <? issued + age
  | _ => true
  end
  && match get (cookie_options penv) "secure" with
     | VBool true => tls
     | _ => true
     end.

(** The state a later request of the same client starts in, when the
    session cookie was issued at [issued]: the session middleware loads
    what the session store holds for the cookie, and opens an empty
    session when the cookie does not come back or the store holds
    nothing. *)
Definition follow_up (penv : ProcessEnv) (issued : Z) (tls : bool)
    (st : St) (e : Env) : St :=
  start
    (if cookie_returns penv issued tls e
     then default (mkSession None) (session_after st)
     else mkSession None)
    (db st) e.

(** The first [n] calls to a store all succeed. *)
Definition calls_succeed (n : nat) (fs : list bool) : bool :=
  forallb negb (take n fs).

(** Nothing but the oracle moved between two states. *)
Definition same_store (st st' : St) : Prop :=
  db st' = db st ∧ sess st' = sess st
  ∧ destroyed st' = destroyed st ∧ cleared st' = cleared st.

(** A string with no white space at either end. *)
Definition trimmed (s : JSString) : Prop :=
  (∀ c, head s = Some c → is_white_space c = false)
  ∧ (∀ c, last s = Some c → is_white_space c = false).

(** No two users share an email, or a username. *)
Definition unique_users (d : Db) : Prop :=
  NoDup (UserDoc.email <$> users d) ∧ NoDup (UserDoc.username <$> users d).

(** A review as the handler stores it: its comment is trimmed. *)
Definition review_ok (r : ReviewDoc.t) : Prop :=
  trimmed (ReviewDoc.comment r).

(** The review belongs to a stored user. *)
Definition owned (d : Db) (r : ReviewDoc.t) : Prop :=
  ∃ u, u ∈ users d ∧ ReviewDoc.user r = Some (UserDoc._id u).

(** The session holds no identity, or the one of a stored user. *)
Definition logged_in_as_stored (st : St) : Prop :=
  match user (sess st) with
  | None => True
  | Some o => ∃ u, u ∈ users (db st) ∧ o = identity u
  end.

(** The collections and the session fit together. *)
Definition consistent (st : St) : Prop :=
  unique_users (db st)
  ∧ Forall review_ok (reviews (db st))
  ∧ Forall (owned (db st)) (reviews (db st))
  ∧ logged_in_as_stored st.

Definition bob_form : gmap string JSString :=
  form [("username", "bob"); ("email", "b@x.com");
        ("password", "pw2"); ("confirmPassword", "pw2")].

Definition one_review : Db := mkDb [ann] [older].

(** * Properties *)

(** ** Session cookie *)

(** C3, as stated, fails in production: the cookie is HTTP-only and
    secure, and it is not same-site. *)
Lemma session_cookie_not_same_site :
  let cookie := cookie_options [("NODE_ENV", "production")] in
  ¬ (get cookie "httpOnly" = VBool true
     ∧ same_site cookie = true
     ∧ get cookie "secure" = VBool true).
Proof. intros cookie (_ & Hsame & _). vm_compute in Hsame. discriminate. Qed.

(** C3 (amended): the session cookie is configured HTTP-only, with a
    maximal age of one hour, and secure exactly when [NODE_ENV] is
    production; the options set no [sameSite] attribute. *)
Theorem session_cookie_options (env : ProcessEnv) :
  let cookie := cookie_options env in
  get cookie "httpOnly" = VBool true
  ∧ (get cookie "secure" = VBool true
     ↔ env_get env "NODE_ENV" = Some "production")
  ∧ get cookie "maxAge" = VNumber 3600000
  ∧ get cookie "sameSite" = VUndefined
  ∧ same_site cookie = false.
Proof.
  cbn. repeat split; try reflexivity.
  - intros Hs. injection Hs as Hs. unfold is_production in Hs.
    by apply bool_decide_eq_true in Hs.
  - intros Hp. unfold is_production. by rewrite bool_decide_eq_true_2.
Qed.

(** ** Unfolding the monad *)

Ltac unfold_monad :=
  unfold try_catch, throw, get_db, put_db, get_session, set_session_user,
    clearCookie, with_db, with_pending, mbind, M_bind, mret, M_ret in *.

Arguments js_lt : simpl never.
Arguments js_gt : simpl never.
Arguments in_range : simpl never.
Arguments trim : simpl never.

Lemma find_no_match {A} (f : A → bool) (l : list A) :
  Forall (λ x, f x = false) l → List.find f l = None.
Proof.
  induction 1 as [|x l Hx _ IH]; [done|]. cbn. by rewrite Hx.
Qed.

Lemma existsb_no_match {A} (f : A → bool) (l : list A) :
  Forall (λ x, f x = false) l → existsb f l = false.
Proof.
  induction 1 as [|x l Hx _ IH]; [done|]. cbn. by rewrite Hx.
Qed.

Lemma find_some_match {A} (f : A → bool) (l : list A) (x : A) :
  x ∈ l → f x = true → is_Some (List.find f l).
Proof.
  intros Hin Hf. destruct (List.find f l) eqn:Hfind; [by eexists|].
  apply list_elem_of_In in Hin.
  by rewrite (find_none _ _ Hfind _ Hin) in Hf.
Qed.

Lemma falsy_false (x : JSField) :
  falsy x = false → ∃ c s, x = Some (c :: s).
Proof. destruct x as [[|c s]|]; cbn; try done. by exists c, s. Qed.

(** ** Logout *)

(** C2, as stated, fails when the session store reports an error: the
    handler does not redirect to the login page, and clears no cookie. *)
Lemma get_logout_error_goes_home :
  let r := get_logout (start ann_session one_user failing) in
  ¬ (fst r = returned (redirect "/login")
     ∧ "connect.sid" ∈ cleared (snd r)
     ∧ session_after (snd r) = None)
  ∧ fst r = returned (redirect "/").
Proof.
  cbn. split; [|reflexivity]. intros (Hr & _). discriminate Hr.
Qed.

(** C2 (amended): the logout handler asks the session store to destroy the
    session, whether or not it holds a user; when that succeeds it clears
    the cookie [connect.sid] and redirects to the login page, and when the
    store reports an error it redirects to the feed, clears no cookie and
    the session stays. The collections are not touched. *)
Theorem get_logout_spec (s : Session) (d : Db) (e : Env) :
  let r := get_logout (start s d e) in
  db (snd r) = d
  ∧ if call_fails (faults e)
    then fst r = returned (redirect "/")
         ∧ cleared (snd r) = []
         ∧ session_after (snd r) = Some s
    else fst r = returned (redirect "/login")
         ∧ cleared (snd r) = ["connect.sid"]
         ∧ session_after (snd r) = None.
Proof.
  unfold get_logout, start, session_destroy. unfold_monad. cbn.
  destruct (faults e) as [|[] fs]; cbn; done.
Qed.

(** ** Review detail *)



Section Properties.
Context `{Platform}.

(** ** The login gate of the review form *)

(** C5: without a user in the session, the handlers of GET /reviews/new
    and of POST /reviews/new answer with a redirect to /login whatever
    the body holds, and leave the state as it was: no review is created
    and no store is called. Through the whole application, a request to
    /reviews/new without a user in the session never changes the state,
    and every such request that reaches its handler is redirected. *)
Theorem reviews_new_requires_login (req : Request) (e : Env)
    (body : gmap string JSString) (st : St) :
  user (sess st) = None →
  get_reviews_new st = (returned (redirect "/login"), st)
  ∧ post_reviews_new e body st = (returned (redirect "/login"), st)
  ∧ (path req = [js "reviews"; js "new"] →
     snd (app req e st) = st
     ∧ (is_get (method req) = true →
        fst (app req e st) = returned (redirect "/login"))
     ∧ (method req = POST →
        csrf_verify (csrf_secret req e) (csrf_value req) = true →
        fst (app req e st) = returned (redirect "/login"))).
Proof.
  intros Hnone.
  assert (get_reviews_new st = (returned (redirect "/login"), st)) as Hget.
  { unfold get_reviews_new. unfold_monad. by rewrite Hnone. }
  assert (∀ b, post_reviews_new e b st = (returned (redirect "/login"), st))
    as Hpost.
  { intros b. unfold post_reviews_new. unfold_monad. by rewrite Hnone. }
  split; [exact Hget|]. split; [apply Hpost|].
  intros Hpath. unfold app, csrf, routes. rewrite Hpath.
  change (matches "reviews" (js "reviews")) with true.
  change (matches "new" (js "new")) with true.
  repeat split.
  - destruct (method req); cbn;
      repeat match goal with
             | |- context [if ?b then _ else _] => destruct b; cbn
             end;
      rewrite ?Hget, ?Hpost; reflexivity.
  - intros Hm. destruct (method req); try discriminate Hm; cbn;
      by rewrite Hget.
  - intros Hm Hv. rewrite Hm, Hv. cbn. by rewrite Hpost.
Qed.

(** ** Login *)

(** C7: a login request with both fields filled in, whose lookup finds no
    user with the submitted email, or finds one whose stored hash does not
    verify the submitted password, is answered with the login form and the
    one message "이메일 또는 비밀번호가 올바르지 않습니다." in both cases;
    the session and the collections stay as they were. *)
Theorem post_login_invalid_credentials (body : gmap string JSString)
    (email password : JSString) (s : Session) (d : Db) (e : Env) :
  body !! "email" = Some email → email ≠ [] →
  body !! "password" = Some password → password ≠ [] →
  call_fails (faults e) = false →
  (Forall (λ u, UserDoc.email u ≠ email) (users d)
   ∨ ∃ u, List.find (User.by_email email) (users d) = Some u
          ∧ bcrypt_compare (UserDoc.password u) password = false) →
  let r := post_login body (start s d e) in
  fst r = returned (render "login"
            (locals_error (Some "이메일 또는 비밀번호가 올바르지 않습니다.")))
  ∧ sess (snd r) = s
  ∧ destroyed (snd r) = false
  ∧ db (snd r) = d.
Proof.
  intros He Hne Hp Hnp Hok Hcase.
  assert (List.find (User.by_email email) (users d) = None
          ∨ ∃ u, List.find (User.by_email email) (users d) = Some u
                 ∧ bcrypt_compare (UserDoc.password u) password = false)
    as Hfind.
  { destruct Hcase as [Hall|Hex]; [left|by right].
    apply find_no_match. eapply Forall_impl; [exact Hall|].
    intros u Hu. by apply bool_decide_eq_false_2. }
  unfold post_login. rewrite He, Hp.
  destruct email as [|c1 email']; [done|].
  destruct password as [|c2 password']; [done|].
  cbn [falsy orb str default].
  unfold User.findOne, User.comparePassword, start, store_call.
  unfold_monad. cbn.
  destruct (faults e) as [|[] fs]; try discriminate Hok; cbn;
    destruct Hfind as [->|(u & -> & Hcmp)]; cbn; rewrite ?Hcmp; done.
Qed.

(** ** Signup *)

(** C4: a signup whose email or username is the one of a stored user is
    answered with the signup form and an error message; the collection of
    users is the same afterwards (no user is added, none is changed) and
    no session identity is written. *)
Theorem post_signup_duplicate (body : gmap string JSString) (u : UserDoc.t)
    (s : Session) (d : Db) (e : Env) :
  u ∈ users d →
  body !! "email" = Some (UserDoc.email u)
  ∨ body !! "username" = Some (UserDoc.username u) →
  let r := post_signup e body (start s d e) in
  (∃ message,
     fst r = returned (render "signup" (locals_error (Some message))))
  ∧ db (snd r) = d
  ∧ sess (snd r) = s.
Proof.
  intros Hin Hdup. unfold post_signup.
  destruct (falsy (body !! "username") || falsy (body !! "email")
            || falsy (body !! "password")
            || falsy (body !! "confirmPassword")) eqn:Hfields;
    [cbn; eauto|].
  apply orb_false_iff in Hfields as [Hfields _].
  apply orb_false_iff in Hfields as [Hfields _].
  apply orb_false_iff in Hfields as [Hun Hem].
  apply falsy_false in Hun as (c1 & un & Hun).
  apply falsy_false in Hem as (c2 & em & Hem).
  destruct (negb (bool_decide (body !! "password"
                               = body !! "confirmPassword")));
    [cbn; eauto|].
  rewrite Hun, Hem. cbn [str default].
  assert (is_Some (List.find
            (User.by_email_or_username (c2 :: em) (c1 :: un)) (users d)))
    as [v Hv].
  { apply (find_some_match _ _ u Hin). unfold User.by_email_or_username.
    apply orb_true_iff.
    destruct Hdup as [Hd|Hd]; rewrite Hd in *; simplify_eq;
      [left|right]; by apply bool_decide_eq_true_2. }
  unfold User.findOne, start, store_call. unfold_monad. cbn.
  destruct (faults e) as [|[] fs]; cbn; rewrite ?Hv; cbn; eauto.
Qed.

(** ** The feed *)

#[local] Instance newest_first_transitive : Transitive Review.newest_first.
Proof. unfold Review.newest_first. intros a b c. lia. Qed.

#[local] Instance newest_first_total : Total Review.newest_first.
Proof. unfold Review.newest_first. intros a b. lia. Qed.

Lemma StronglySorted_lookup_lt {A} (R : relation A) (l : list A)
    (i j : nat) (a b : A) :
  StronglySorted R l → l !! i = Some a → l !! j = Some b → (i < j)%nat →
  R a b.
Proof.
  intros Hs. revert i j. induction Hs as [|x l Hs IH Hall]; intros i j.
  - by rewrite lookup_nil.
  - destruct i as [|i], j as [|j]; cbn; intros Hi Hj Hlt; try lia.
    + simplify_eq. eapply Forall_lookup_1; eauto.
    + eapply (IH i j); eauto. lia.
Qed.

Lemma doc_populate (us : list UserDoc.t) (l : list ReviewDoc.t) :
  ReviewDoc.doc <$> (Review.populate us <$> l) = l.
Proof. induction l as [|r l IH]; cbn; [done|]. by rewrite IH. Qed.

(** C6: when the store answers, the home page renders the view of the
    feed with the stored reviews, each once, and whenever a review A was
    created after a review B, A stands before B. *)
Theorem feed_newest_first (s : Session) (d : Db) (e : Env) :
  call_fails (faults e) = false →
  ∃ feed,
    fst (get_home (start s d e))
      = returned (render "index" (locals_reviews feed))
    ∧ ReviewDoc.doc <$> feed ≡ₚ reviews d
    ∧ ∀ (i j : nat) (A B : ReviewDoc.populated),
        feed !! i = Some A → feed !! j = Some B →
        ReviewDoc.createdAt (ReviewDoc.doc B)
          < ReviewDoc.createdAt (ReviewDoc.doc A) →
        (i < j)%nat.
Proof.
  intros Hok.
  exists (Review.populate (users d) <$> Review.sort (reviews d)).
  split; [|split].
  - unfold get_home, Review.find_populate_sort, start, store_call.
    unfold_monad. cbn.
    destruct (faults e) as [|[] fs]; try discriminate Hok; done.
  - rewrite doc_populate. apply merge_sort_Permutation.
  - intros i j A B Hi Hj Hlt.
    destruct (decide (i < j)%nat) as [|Hge]; [done|exfalso].
    apply (f_equal (fmap ReviewDoc.doc)) in Hi, Hj.
    rewrite <- list_lookup_fmap, doc_populate in Hi, Hj. cbn in Hi, Hj.
    destruct (decide (i = j)) as [->|Hne].
    + rewrite Hi in Hj. injection Hj as Hj. rewrite Hj in Hlt. lia.
    + assert (Review.newest_first (ReviewDoc.doc B) (ReviewDoc.doc A)) as HR.
      { eapply (StronglySorted_lookup_lt _ _ j i); eauto; [|lia].
        apply (StronglySorted_merge_sort _). }
      unfold Review.newest_first in HR. lia.
Qed.

(** ** Submitting a review *)

Ltac nothing_added :=
  solve [cbn; repeat split;
         try (by left); try (by intros []); try done; eauto].

Lemma in_range_bounds (n : JSNumber) :
  in_range n = true → ∃ q, n = Num q ∧ (1 <= q)%Q ∧ (q <= 5)%Q.
Proof.
  destruct n as [|q| |]; cbn; try done.
  intros [H1 H5]%andb_true_iff. exists q.
  by rewrite <- !Qle_bool_iff.
Qed.

Lemma validate_new (e : Env) (who : JSField) (rating comment : JSString) :
  Review.validate (Review.new e who rating comment)
  = in_range (ToNumber rating) && integral (ToNumber rating)
    && negb (bool_decide (comment = [])).
Proof.
  unfold Review.validate, Review.new, in_range, integral. cbn.
  by destruct (ToNumber rating).
Qed.

(** C1: the handler of POST /reviews/new never touches the users, and it
    adds at most one review: one whose rating is a number q with
    1 ≤ q ≤ 5 and whose comment is the trimmed comment of the form, which
    is not empty; the answer is then the redirect to the feed. A
    submission that is not of this kind adds nothing, and a logged-in
    client gets the form again with an error message. *)
Theorem post_reviews_new_validates (body : gmap string JSString)
    (s : Session) (d : Db) (e : Env) :
  let r := post_reviews_new e body (start s d e) in
  users (db (snd r)) = users d
  ∧ (reviews (db (snd r)) = reviews d
     ∨ ∃ rating comment q review,
         body !! "rating" = Some rating
         ∧ body !! "comment" = Some comment
         ∧ ToNumber rating = Num q ∧ (1 <= q)%Q ∧ (q <= 5)%Q
         ∧ trim comment ≠ []
         ∧ ReviewDoc.rating review = Num q
         ∧ ReviewDoc.comment review = trim comment
         ∧ reviews (db (snd r)) = (reviews d ++ [review])%list
         ∧ fst r = returned (redirect "/"))
  ∧ (acceptable body = false →
     db (snd r) = d
     ∧ (is_Some (user s) →
        ∃ message,
          fst r = returned (render "new" (locals_error (Some message))))).
Proof.
  unfold post_reviews_new, acceptable, start. unfold_monad. cbn.
  destruct (user s) as [session_user|]; [|nothing_added].
  destruct (body !! "rating") as [[|c1 rating]|]; cbn; try nothing_added.
  destruct (body !! "comment") as [[|c2 comment]|]; cbn; try nothing_added.
  destruct (js_lt (ToNumber (c1 :: rating)) (Num 1)
            || js_gt (ToNumber (c1 :: rating)) (Num 5)); cbn;
    try nothing_added.
  unfold Review.save. rewrite validate_new.
  destruct (in_range (ToNumber (c1 :: rating))) eqn:Hrange;
    cbn; try nothing_added.
  destruct (bool_decide (trim (c2 :: comment) = [])) eqn:Hcomment;
    cbn; rewrite ?andb_false_r; cbn; try nothing_added.
  destruct (integral (ToNumber (c1 :: rating)));
    cbn; try nothing_added.
  apply in_range_bounds in Hrange as (q & Hq & H1 & H5).
  apply bool_decide_eq_false in Hcomment.
  unfold store_call. unfold_monad. cbn.
  destruct (faults e) as [|[] fs]; cbn; try nothing_added.
  all: split; [done|]; split; [|done]; right.
  all: exists (c1 :: rating), (c2 :: comment), q.
  all: eexists; repeat split; eauto; cbn; by rewrite ?Hq.
Qed.

(** ** The identity in the session *)

Ltac case_split :=
  repeat (cbn;
    match goal with
    | |- context [match ?x with _ => _ end] => is_var x; destruct x
    | |- context [match ?x with _ => _ end] =>
        lazymatch x with
        | context [match ?y with _ => _ end] => fail
        | _ => destruct x eqn:?
        end
    end).

Ltac session_stays_or_identity :=
  first [ by left
        | right; eexists; reflexivity
        | right; eexists (UserDoc.mk _ _ _ []); reflexivity ].

Lemma post_signup_session (e : Env) (body : gmap string JSString) (st : St) :
  session_step st (snd (post_signup e body st)).
Proof.
  destruct st as [d s dead cl fs].
  unfold post_signup, User.findOne, User.save, store_call, session_step.
  unfold_monad. case_split; session_stays_or_identity.
Qed.

Lemma post_login_session (body : gmap string JSString) (st : St) :
  session_step st (snd (post_login body st)).
Proof.
  destruct st as [d s dead cl fs].
  unfold post_login, User.findOne, User.comparePassword, store_call,
    session_step.
  unfold_monad. case_split; session_stays_or_identity.
Qed.

Lemma post_reviews_new_session (e : Env) (body : gmap string JSString)
    (st : St) :
  sess (snd (post_reviews_new e body st)) = sess st.
Proof.
  destruct st as [d s dead cl fs].
  unfold post_reviews_new, Review.save, store_call. unfold_monad.
  case_split; reflexivity.
Qed.

Lemma routes_session (req : Request) (e : Env) (st : St) :
  session_step st (snd (routes req e st)).
Proof.
  unfold routes.
  destruct (path req) as [|a [|b [|c p]]];
    repeat match goal with
           | |- context [if ?b then _ else _] => destruct b
           end;
    try apply post_signup_session; try apply post_login_session;
    try (left; apply post_reviews_new_session);
    try (by left).
  all: left; destruct st as [d s dead cl fs].
  all: unfold get_home, get_reviews_new, get_reviews_id, get_logout,
         Review.find_populate_sort, Review.findById_populate,
         session_destroy, store_call.
  all: unfold_monad; case_split; reflexivity.
Qed.

(** C10: after a signup or a login that succeeds (the redirect to the
    feed), the session holds the identity of a stored user: an object
    with exactly the properties id, username and email, and no property
    password. No request to the application, on any route, leaves
    anything else in the session. *)
Theorem session_identity (req : Request) (e : Env)
    (body : gmap string JSString) (st st' : St) :
  (post_signup e body st = (returned (redirect "/"), st') →
   ∃ u, u ∈ users (db st') ∧ user (sess st') = Some (identity u))
  ∧ (post_login body st = (returned (redirect "/"), st') →
     ∃ u, u ∈ users (db st') ∧ user (sess st') = Some (identity u))
  ∧ (∀ u, js_keys (identity u) = ["id"; "username"; "email"]
          ∧ js_get (identity u) "password" = None)
  ∧ (session_ok (sess st) → session_ok (sess (snd (app req e st)))).
Proof.
  split; [|split; [|split]].
  - destruct st as [d s dead cl fs].
    unfold post_signup, User.findOne, User.save, store_call.
    unfold_monad. case_split; intros Heq; simplify_eq; cbn.
    all: eexists (UserDoc.mk _ _ _ _); split; [|reflexivity].
    all: apply elem_of_app; right; by apply list_elem_of_singleton.
  - destruct st as [d s dead cl fs].
    unfold post_login, User.findOne, User.comparePassword, store_call.
    unfold_monad. case_split; intros Heq; simplify_eq; cbn.
    all: match goal with
         | Hfind : List.find _ _ = Some ?t |- _ =>
             exists t; split; [|reflexivity];
             apply list_elem_of_In; exact (proj1 (find_some _ _ Hfind))
         end.
  - intros u. split; reflexivity.
  - intros Hok. unfold app, csrf.
    destruct (negb (csrf_ignored (method req))
              && negb (csrf_verify (csrf_secret req e) (csrf_value req)));
      [exact Hok|].
    destruct (routes_session req e st) as [->|[u Hu]]; [exact Hok|].
    unfold session_ok. by rewrite Hu.
Qed.

(** ** The CSRF guard *)

(** C8 (amended): a request whose method is not GET, HEAD or OPTIONS and
    whose token is absent, or does not verify against the secret of the
    request, is answered by the guard itself: no handler runs, and the
    collections, the session and the oracle of the store calls are as
    before. A request with one of the three methods goes to the routes
    without a check; GET /logout is one of them. *)
Theorem csrf_guard (req : Request) (e : Env) (st : St) :
  (csrf_ignored (method req) = false →
   falsy (csrf_value req) = true
   ∨ tokens_verify (csrf_secret req e) (str (csrf_value req)) = false →
   app req e st = (returned forbidden, st))
  ∧ (csrf_ignored (method req) = true →
     app req e st = routes req e st)
  ∧ (method req = GET → path req = [js "logout"] →
     app req e st = get_logout st).
Proof.
  unfold app, csrf, csrf_verify. repeat split.
  - intros -> [->| ->]; cbn; [done|]. by rewrite andb_false_r.
  - by intros ->.
  - intros Hm Hp. unfold routes. rewrite Hm, Hp. reflexivity.
Qed.

End Properties.

(** * The properties at work *)

(** C8, as stated, fails for GET /logout: the request changes the state
    (it destroys the session), it carries no token, and it is not
    rejected. *)
Lemma logout_needs_no_token : ¬ @guards_every_state_change sample_platform.
Proof.
  intros Hguard.
  specialize (Hguard (request GET ["logout"] []) quiet
                (start ann_session one_user quiet)).
  assert (@app sample_platform (request GET ["logout"] []) quiet
            (start ann_session one_user quiet)
          = (returned (redirect "/login"),
             mkSt one_user ann_session true ["connect.sid"] [])) as Happ
    by (vm_compute; reflexivity).
  rewrite Happ in Hguard.
  discriminate Hguard.
  - right. vm_compute. discriminate.
  - vm_compute. reflexivity.
Qed.

(** The guard of C8 at work: a signup form posted without a token. *)
Lemma csrf_guard_witness :
  @app sample_platform
    (request POST ["signup"] [("username", "bob"); ("email", "b@x.com");
                              ("password", "pw"); ("confirmPassword", "pw")])
    quiet (start (mkSession None) one_user quiet)
  = (returned forbidden, start (mkSession None) one_user quiet).
Proof.
  apply (proj1 (@csrf_guard sample_platform _ _ _)).
  - reflexivity.
  - left. vm_compute. reflexivity.
Defined.


(** C5 at work: a review posted without a login. *)
Lemma reviews_new_requires_login_witness :
  let st := start (mkSession None) one_user quiet in
  @post_reviews_new sample_platform quiet
    (form [("rating", "5"); ("comment", "good")]) st
  = (returned (redirect "/login"), st).
Proof.
  apply (@reviews_new_requires_login sample_platform
           (request POST ["reviews"; "new"] []) quiet
           (form [("rating", "5"); ("comment", "good")])
           (start (mkSession None) one_user quiet)).
  reflexivity.
Defined.

(** C7 at work: the right email with the wrong password. *)
Lemma post_login_invalid_credentials_witness :
  let r := @post_login sample_platform
             (form [("email", "a@x.com"); ("password", "pw2")])
             (start (mkSession None) one_user quiet) in
  fst r = returned (render "login"
            (locals_error (Some "이메일 또는 비밀번호가 올바르지 않습니다.")))
  ∧ sess (snd r) = mkSession None
  ∧ destroyed (snd r) = false
  ∧ db (snd r) = one_user.
Proof.
  apply (@post_login_invalid_credentials sample_platform
           (form [("email", "a@x.com"); ("password", "pw2")])
           (js "a@x.com") (js "pw2") (mkSession None) one_user quiet).
  - vm_compute. reflexivity.
  - vm_compute. discriminate.
  - vm_compute. reflexivity.
  - vm_compute. discriminate.
  - reflexivity.
  - right. exists ann. split; vm_compute; reflexivity.
Defined.

(** C4 at work: a signup with the email of a stored user. *)
Lemma post_signup_duplicate_witness :
  let r := @post_signup sample_platform quiet
             (form [("username", "ann2"); ("email", "a@x.com");
                    ("password", "pw"); ("confirmPassword", "pw")])
             (start (mkSession None) one_user quiet) in
  (∃ message,
     fst r = returned (render "signup" (locals_error (Some message))))
  ∧ db (snd r) = one_user
  ∧ sess (snd r) = mkSession None.
Proof.
  apply (@post_signup_duplicate sample_platform _ ann).
  - vm_compute. by left.
  - left. vm_compute. reflexivity.
Defined.

(** C6 at work: a feed of two reviews. *)
Lemma feed_newest_first_witness :
  ∃ feed,
    fst (get_home (start ann_session two_reviews quiet))
      = returned (render "index" (locals_reviews feed))
    ∧ ReviewDoc.doc <$> feed ≡ₚ reviews two_reviews
    ∧ ∀ (i j : nat) (A B : ReviewDoc.populated),
        feed !! i = Some A → feed !! j = Some B →
        ReviewDoc.createdAt (ReviewDoc.doc B)
          < ReviewDoc.createdAt (ReviewDoc.doc A) →
        (i < j)%nat.
Proof.
  apply (feed_newest_first ann_session two_reviews quiet). reflexivity.
Defined.

(** C1 at work: a comment of spaces gets past the tests of the handler
    and is refused when the review is saved. *)
Lemma post_reviews_new_validates_witness :
  let body := form [("rating", "3"); ("comment", "   ")] in
  let r := @post_reviews_new sample_platform quiet body
             (start ann_session one_user quiet) in
  @acceptable sample_platform body = false
  ∧ db (snd r) = one_user
  ∧ ∃ message, fst r = returned (render "new" (locals_error (Some message))).
Proof.
  intros body r.
  assert (@acceptable sample_platform body = false) as Hbad
    by (vm_compute; reflexivity).
  destruct (proj2 (proj2 (@post_reviews_new_validates sample_platform
              body ann_session one_user quiet)) Hbad) as [Hdb Hform].
  split; [exact Hbad|]. split; [exact Hdb|].
  apply Hform. by eexists.
Defined.

(** C10 at work: the first signup of the site. *)
Lemma session_identity_witness :
  let body := form [("username", "ann"); ("email", "a@x.com");
                    ("password", "pw1"); ("confirmPassword", "pw1")] in
  let st := start (mkSession None) (mkDb [] []) quiet in
  let st' := snd (@post_signup sample_platform quiet body st) in
  ∃ u, u ∈ users (db st') ∧ user (sess st') = Some (identity u).
Proof.
  intros body st st'.
  apply (proj1 (@session_identity sample_platform
                  (request POST ["signup"] []) quiet body st st')).
  vm_compute. reflexivity.
Defined.

(** A submission that is in order is stored, with its comment trimmed. *)
Example post_reviews_new_stores :
  let r := @post_reviews_new sample_platform quiet
             (form [("rating", "5"); ("comment", " good ")])
             (start ann_session one_user quiet) in
  fst r = returned (redirect "/")
  ∧ reviews (db (snd r))
    = [ReviewDoc.mk next_id (Some ann_id) (Num 5) (js "good") 1000].
Proof. vm_compute. split; reflexivity. Qed.

(** A rating that is not a number passes both comparisons of the handler;
    the save refuses it. *)
Example post_reviews_new_not_a_number :
  let r := @post_reviews_new sample_platform quiet
             (form [("rating", "abc"); ("comment", "good")])
             (start ann_session one_user quiet) in
  fst r = returned (render "new"
            (locals_error (Some "리뷰 작성 중 오류가 발생했습니다.")))
  ∧ db (snd r) = one_user.
Proof. vm_compute. split; reflexivity. Qed.

(** A rating of 6 is refused by the handler itself. *)
Example post_reviews_new_six :
  fst (@post_reviews_new sample_platform quiet
         (form [("rating", "6"); ("comment", "good")])
         (start ann_session one_user quiet))
  = returned (render "new"
      (locals_error (Some "평점은 1에서 5 사이여야 합니다."))).
Proof. vm_compute. reflexivity. Qed.

(** Logging out without a user in the session ends at the login page. *)
Example get_logout_without_user :
  fst (get_logout (start (mkSession None) one_user quiet))
  = returned (redirect "/login").
Proof. reflexivity. Qed.

(** * Further properties of the application *)

(** ** Trimming *)

Arguments is_white_space : simpl never.
Arguments js : simpl never.

Lemma trim_start_split (s : JSString) :
  ∃ a, s = (a ++ trim_start s)%list
       ∧ Forall (λ c, is_white_space c = true) a.
Proof.
  induction s as [|c s (a & Hs & Ha)]; [by exists []|].
  cbn [trim_start]. destruct (is_white_space c) eqn:Hc.
  - exists (c :: a). split; [cbn; by rewrite <- Hs|by constructor].
  - by exists [].
Qed.

Lemma trim_start_head (s : JSString) (c : N) :
  head (trim_start s) = Some c → is_white_space c = false.
Proof.
  induction s as [|x s IH]; [done|]. cbn [trim_start].
  destruct (is_white_space x) eqn:Hx; [exact IH|].
  cbn. intros [= <-]. exact Hx.
Qed.

Lemma trim_start_keeps_last (s : JSString) (c : N) :
  is_white_space c = false →
  ∃ s', trim_start (s ++ [c]) = (s' ++ [c])%list.
Proof.
  intros Hc. induction s as [|x s (s' & IH)]; cbn.
  - rewrite Hc. by exists [].
  - destruct (is_white_space x); [by exists s'|by exists (x :: s)].
Qed.

Lemma trim_is_trimmed (s : JSString) : trimmed (trim s).
Proof.
  unfold trim, trimmed. split; intros c Hc.
  - destruct (trim_start s) as [|x t] eqn:Ht; [done|].
    assert (is_white_space x = false) as Hx
      by (apply (trim_start_head s); by rewrite Ht).
    rewrite reverse_cons in Hc.
    destruct (trim_start_keeps_last (reverse t) x Hx) as (t' & Ht').
    rewrite Ht', reverse_app in Hc. cbn in Hc. by simplify_eq.
  - rewrite last_reverse in Hc. by apply trim_start_head in Hc.
Qed.

(** X1: [trim] cuts a run of white space off each end of the string and
    nothing else, and what it returns has no white space at either end; a
    string without white space at its ends comes back as it is. *)
Theorem trim_spec (s : JSString) :
  (∃ a b, s = (a ++ trim s ++ b)%list
          ∧ Forall (λ c, is_white_space c = true) a
          ∧ Forall (λ c, is_white_space c = true) b)
  ∧ trimmed (trim s)
  ∧ (trimmed s → trim s = s).
Proof.
  split; [|split; [apply trim_is_trimmed|]]; unfold trim, trimmed.
  - destruct (trim_start_split s) as (a & Hs & Ha).
    destruct (trim_start_split (reverse (trim_start s))) as (b & Ht & Hb).
    exists a, (reverse b). split; [|split; [done|]].
    + rewrite <- reverse_app, <- Ht, reverse_involutive. exact Hs.
    + by apply Forall_reverse.
  - intros [Hhead Hlast].
    assert (∀ t : JSString,
              (∀ c, head t = Some c → is_white_space c = false) →
              trim_start t = t) as Hfix.
    { intros [|x t] Hx; [done|]. cbn. by rewrite (Hx x). }
    rewrite (Hfix s Hhead), Hfix, reverse_involutive; [done|].
    intros c. rewrite head_reverse. apply Hlast.
Qed.

Section Further.
Context `{Platform}.

(** ** What each route may change *)

Ltac split_cases :=
  repeat (cbn;
    match goal with
    | |- context [match ?x with _ => _ end] => is_var x; destruct x
    | |- context [match ?x with _ => _ end] =>
        lazymatch x with
        | context [match ?y with _ => _ end] => fail
        | _ => destruct x eqn:?
        end
    end).

Lemma get_home_same (st : St) : same_store st (snd (get_home st)).
Proof.
  destruct st as [d s dead cl fs].
  unfold get_home, Review.find_populate_sort, store_call, same_store.
  unfold_monad. split_cases; done.
Qed.

Lemma get_reviews_id_same (reviewId : JSString) (st : St) :
  same_store st (snd (get_reviews_id reviewId st)).
Proof.
  destruct st as [d s dead cl fs].
  unfold get_reviews_id, Review.findById_populate, store_call, same_store.
  unfold_monad. split_cases; done.
Qed.

Lemma get_reviews_new_same (st : St) :
  same_store st (snd (get_reviews_new st)).
Proof.
  destruct st as [d s dead cl fs]. unfold get_reviews_new, same_store.
  unfold_monad. split_cases; done.
Qed.

Lemma post_login_effects (body : gmap string JSString) (st : St) :
  let st' := snd (post_login body st) in
  db st' = db st ∧ destroyed st' = destroyed st ∧ cleared st' = cleared st.
Proof.
  destruct st as [d s dead cl fs].
  unfold post_login, User.findOne, User.comparePassword, store_call.
  unfold_monad. split_cases; done.
Qed.

Lemma post_signup_effects (e : Env) (body : gmap string JSString) (st : St) :
  let st' := snd (post_signup e body st) in
  reviews (db st') = reviews (db st)
  ∧ destroyed st' = destroyed st ∧ cleared st' = cleared st.
Proof.
  destruct st as [d s dead cl fs].
  unfold post_signup, User.findOne, User.save, store_call.
  unfold_monad. split_cases; done.
Qed.

Lemma post_reviews_new_effects (e : Env) (body : gmap string JSString)
    (st : St) :
  let st' := snd (post_reviews_new e body st) in
  users (db st') = users (db st) ∧ sess st' = sess st
  ∧ destroyed st' = destroyed st ∧ cleared st' = cleared st.
Proof.
  destruct st as [d s dead cl fs].
  unfold post_reviews_new, Review.save, store_call.
  unfold_monad. split_cases; done.
Qed.

Lemma get_logout_effects (st : St) :
  let st' := snd (get_logout st) in
  db st' = db st ∧ sess st' = sess st.
Proof.
  destruct st as [d s dead cl fs].
  unfold get_logout, session_destroy. unfold_monad. split_cases; done.
Qed.

Lemma is_post_POST (m : Method) : is_post m = true → m = POST.
Proof. by destruct m. Qed.

Lemma matches_lower (literal : string) (segment : JSString) :
  matches literal segment = true →
  lower <$> segment = lower <$> js literal.
Proof. apply bool_decide_eq_true. Qed.

(** The routes that write, each with what it leaves alone; every other
    request moves nothing but the oracle. *)
Lemma routes_effects (req : Request) (e : Env) (st : St) :
  let st' := snd (routes req e st) in
  (method req = POST ∧ route_is ["signup"] req
   ∧ st' = snd (post_signup e (body req) st))
  ∨ (method req = POST ∧ route_is ["login"] req
     ∧ st' = snd (post_login (body req) st))
  ∨ (method req = POST ∧ route_is ["reviews"; "new"] req
     ∧ st' = snd (post_reviews_new e (body req) st))
  ∨ (is_get (method req) = true ∧ route_is ["logout"] req
     ∧ st' = snd (get_logout st))
  ∨ same_store st st'.
Proof.
  assert (same_store st st) as Hsame by done.
  unfold routes, route_is.
  destruct (path req) as [|a [|b [|c p]]]; cbn.
  - destruct (is_get (method req));
      [do 4 right; apply get_home_same|by do 4 right].
  - destruct (matches "signup" a) eqn:Ha.
    { apply matches_lower in Ha.
      destruct (is_get (method req)); [by do 4 right|].
      destruct (is_post (method req)) eqn:Hp; [|by do 4 right].
      left. apply is_post_POST in Hp. by rewrite Ha. }
    destruct (matches "login" a) eqn:Hb.
    { apply matches_lower in Hb.
      destruct (is_get (method req)); [by do 4 right|].
      destruct (is_post (method req)) eqn:Hp; [|by do 4 right].
      right; left. apply is_post_POST in Hp. by rewrite Hb. }
    destruct (matches "logout" a) eqn:Hc; [|by do 4 right].
    apply matches_lower in Hc.
    destruct (is_get (method req)) eqn:Hg; [|by do 4 right].
    do 3 right; left. by rewrite Hc.
  - destruct (matches "reviews" a) eqn:Ha; [|by do 4 right].
    apply matches_lower in Ha.
    destruct (matches "new" b) eqn:Hb.
    { apply matches_lower in Hb.
      destruct (is_get (method req));
        [do 4 right; apply get_reviews_new_same|].
      destruct (is_post (method req)) eqn:Hp; [|by do 4 right].
      do 2 right; left. apply is_post_POST in Hp. by rewrite Ha, Hb. }
    destruct (is_get (method req));
      [do 4 right; apply get_reviews_id_same|by do 4 right].
  - by do 4 right.
Qed.

Lemma app_effects (req : Request) (e : Env) (st : St) :
  snd (app req e st) = st ∨ snd (app req e st) = snd (routes req e st).
Proof.
  unfold app, csrf.
  destruct (negb (csrf_ignored (method req))
            && negb (csrf_verify (csrf_secret req e) (csrf_value req)));
    [by left|by right].
Qed.

(** X2: whatever the request, the users change only under POST /signup,
    the reviews only under POST /reviews/new, the session is written only
    under POST /signup and POST /login, and it is destroyed only under
    GET (or HEAD) /logout; the paths are compared as Express does,
    without regard to the case of the letters. *)
Theorem app_writes_only_where_expected (req : Request) (e : Env) (st : St) :
  let st' := snd (app req e st) in
  (users (db st') ≠ users (db st) →
   method req = POST ∧ route_is ["signup"] req)
  ∧ (reviews (db st') ≠ reviews (db st) →
     method req = POST ∧ route_is ["reviews"; "new"] req)
  ∧ (sess st' ≠ sess st →
     method req = POST
     ∧ (route_is ["signup"] req ∨ route_is ["login"] req))
  ∧ (destroyed st' ≠ destroyed st →
     is_get (method req) = true ∧ route_is ["logout"] req).
Proof.
  cbn zeta.
  pose proof (post_signup_effects e (body req) st) as (Hs1 & Hs2 & _).
  pose proof (post_login_effects (body req) st) as (Hl1 & Hl2 & _).
  pose proof (post_reviews_new_effects e (body req) st)
    as (Hr1 & Hr2 & Hr3 & _).
  pose proof (get_logout_effects st) as (Ho1 & Ho2).
  split; [|split; [|split]]; intros Hne.
  all: destruct (app_effects req e st) as [Heq|Heq];
         rewrite Heq in Hne; [done|].
  all: destruct (routes_effects req e st)
         as [(Hm & Hp & Hst)|[(Hm & Hp & Hst)|[(Hm & Hp & Hst)
            |[(Hm & Hp & Hst)|(Hdb & Hs & Hd & _)]]]].
  all: first [ by (split; [done|first [done|by left|by right]])
             | exfalso; apply Hne; congruence ].
Qed.

(** ** Forms that are not filled in *)

(** X3: in the three handlers that take a form, the tests of the fields
    come before any call to a store. A signup or a login with a field
    missing or empty, a signup whose two passwords differ, and, for a
    logged-in client, a review with a field missing or with a rating below
    1 or above 5 are each answered with the form and the message of that
    test, and nothing at all is changed: not even a store is called. *)
Theorem incomplete_forms_stop_before_the_store (e : Env)
    (body : gmap string JSString) (st : St) :
  let back view message :=
    (returned (render view (locals_error (Some message))), st) in
  (falsy (body !! "username") || falsy (body !! "email")
   || falsy (body !! "password") || falsy (body !! "confirmPassword") = true →
   post_signup e body st = back "signup" "모든 필드를 입력해주세요.")
  ∧ (falsy (body !! "username") || falsy (body !! "email")
     || falsy (body !! "password") || falsy (body !! "confirmPassword")
     = false →
     body !! "password" ≠ body !! "confirmPassword" →
     post_signup e body st = back "signup" "비밀번호가 일치하지 않습니다.")
  ∧ (falsy (body !! "email") || falsy (body !! "password") = true →
     post_login body st = back "login" "모든 필드를 입력해주세요.")
  ∧ (is_Some (user (sess st)) →
     falsy (body !! "rating") || falsy (body !! "comment") = true →
     post_reviews_new e body st = back "new" "모든 필드를 입력해주세요.")
  ∧ (is_Some (user (sess st)) →
     falsy (body !! "rating") || falsy (body !! "comment") = false →
     js_lt (ToNumber (str (body !! "rating"))) (Num 1)
     || js_gt (ToNumber (str (body !! "rating"))) (Num 5) = true →
     post_reviews_new e body st = back "new" "평점은 1에서 5 사이여야 합니다.").
Proof.
  unfold post_signup, post_login, post_reviews_new. unfold_monad.
  repeat split.
  - by intros ->.
  - intros -> Hne. by rewrite bool_decide_eq_false_2.
  - by intros ->.
  - intros [o ->] ->. done.
  - intros [o ->] -> ->. done.
Qed.

(** ** Signup *)

(** X4: a complete signup form with matching passwords, whose email and
    username no stored user has, adds exactly one user with the submitted
    username and email, writes the identity of that user to the session
    and redirects to the feed, provided both calls to the store succeed.
    When one of them fails, the form comes back with the signup-error
    message, no user is added and the session is not written. *)
Theorem post_signup_fresh (e : Env) (body : gmap string JSString)
    (username email password : JSString) (s : Session) (d : Db) :
  body !! "username" = Some username → username ≠ [] →
  body !! "email" = Some email → email ≠ [] →
  body !! "password" = Some password → password ≠ [] →
  body !! "confirmPassword" = Some password →
  Forall (λ u, UserDoc.email u ≠ email ∧ UserDoc.username u ≠ username)
    (users d) →
  let r := post_signup e body (start s d e) in
  if calls_succeed 2 (faults e)
  then
    fst r = returned (redirect "/")
    ∧ (∃ u, users (db (snd r)) = (users d ++ [u])%list
            ∧ UserDoc._id u = fresh_id e
            ∧ UserDoc.username u = username
            ∧ UserDoc.email u = email
            ∧ user (sess (snd r)) = Some (identity u))
    ∧ reviews (db (snd r)) = reviews d
  else
    fst r = returned (render "signup"
              (locals_error (Some "회원가입 중 오류가 발생했습니다.")))
    ∧ db (snd r) = d
    ∧ sess (snd r) = s.
Proof.
  intros Hu Hun He Hen Hp Hpn Hc Hfresh.
  assert (Forall (λ u, User.by_email_or_username email username u = false)
            (users d)) as Hnone.
  { eapply Forall_impl; [exact Hfresh|]. intros u [H1 H2].
    unfold User.by_email_or_username.
    by rewrite !bool_decide_eq_false_2. }
  unfold post_signup. rewrite Hu, He, Hp, Hc.
  destruct username as [|c1 username]; [done|].
  destruct email as [|c2 email]; [done|].
  destruct password as [|c3 password]; [done|].
  rewrite bool_decide_eq_true_2 by done. cbn [falsy orb negb str default].
  unfold User.findOne, User.save, User.new, start, store_call, calls_succeed.
  unfold_monad. cbn.
  destruct (faults e) as [|[] [|[] fs]]; cbn;
    rewrite ?(find_no_match _ _ Hnone); cbn;
    rewrite ?(existsb_no_match _ _ Hnone); cbn; try done.
  all: split; [done|]; split; [|done].
  all: by eexists (UserDoc.mk _ _ _ _).
Qed.

(** ** Login *)

(** X6: a login with the email of a stored user and a password that
    verifies against the hash of the first user with that email writes the
    identity of that user to the session and redirects to the feed; when
    the lookup fails, the form comes back with the login-error message
    and the session is not written. The collections stay as they were in
    both cases. *)
Theorem post_login_valid (body : gmap string JSString)
    (email password : JSString) (u : UserDoc.t)
    (s : Session) (d : Db) (e : Env) :
  body !! "email" = Some email → email ≠ [] →
  body !! "password" = Some password → password ≠ [] →
  List.find (User.by_email email) (users d) = Some u →
  bcrypt_compare (UserDoc.password u) password = true →
  let r := post_login body (start s d e) in
  db (snd r) = d
  ∧ if call_fails (faults e)
    then fst r = returned (render "login"
                   (locals_error (Some "로그인 중 오류가 발생했습니다.")))
         ∧ sess (snd r) = s
    else fst r = returned (redirect "/")
         ∧ user (sess (snd r)) = Some (identity u)
         ∧ UserDoc.email u = email.
Proof.
  intros He Hen Hp Hpn Hfind Hcmp.
  assert (UserDoc.email u = email) as Hemail.
  { apply find_some in Hfind as [_ Hq]. by apply bool_decide_eq_true in Hq. }
  unfold post_login. rewrite He, Hp.
  destruct email as [|c1 email']; [done|].
  destruct password as [|c2 password']; [done|].
  cbn [falsy orb str default].
  unfold User.findOne, User.comparePassword, start, store_call.
  unfold_monad. cbn.
  destruct (faults e) as [|[] fs]; cbn; rewrite ?Hfind; cbn;
    rewrite ?Hcmp; cbn; done.
Qed.

Lemma find_none_Forall {A} (f : A → bool) (l : list A) :
  List.find f l = None → Forall (λ x, f x = false) l.
Proof.
  intros Hfind. apply Forall_forall. intros x Hx.
  apply (find_none _ _ Hfind). by apply list_elem_of_In.
Qed.

(** The two ways a login ends. *)
Lemma post_login_cases (body : gmap string JSString)
    (s : Session) (d : Db) (e : Env) :
  let r := post_login body (start s d e) in
  (same_store (start s d e) (snd r)
   ∧ ∃ message,
       fst r = returned (render "login" (locals_error (Some message))))
  ∨ (∃ email password u,
       body !! "email" = Some email
       ∧ body !! "password" = Some password
       ∧ u ∈ users d
       ∧ UserDoc.email u = email
       ∧ bcrypt_compare (UserDoc.password u) password = true
       ∧ db (snd r) = d
       ∧ sess (snd r) = mkSession (Some (identity u))
       ∧ fst r = returned (redirect "/")).
Proof.
  unfold post_login, same_store.
  destruct (falsy (body !! "email") || falsy (body !! "password")) eqn:Hf;
    [cbn; left; eauto 10|].
  apply orb_false_iff in Hf as [He Hp].
  apply falsy_false in He as (c1 & email & He).
  apply falsy_false in Hp as (c2 & password & Hp).
  rewrite He, Hp. cbn [str default].
  unfold User.findOne, User.comparePassword, start, store_call.
  unfold_monad. cbn.
  destruct (faults e) as [|[] fs]; cbn; try (left; by eauto 10).
  all: destruct (List.find (User.by_email (c1 :: email)) (users d))
         as [u|] eqn:Hfind; cbn; try (left; by eauto 10).
  all: destruct (bcrypt_compare (UserDoc.password u) (c2 :: password))
         eqn:Hcmp; cbn; try (left; by eauto 10).
  all: right; exists (c1 :: email), (c2 :: password), u.
  all: apply find_some in Hfind as [Hin Hq].
  all: apply bool_decide_eq_true in Hq; apply list_elem_of_In in Hin.
  all: done.
Qed.


(** ** Signup, the other way round *)

(** The two ways a signup ends. *)
Lemma post_signup_cases (e : Env) (body : gmap string JSString)
    (s : Session) (d : Db) :
  let r := post_signup e body (start s d e) in
  (same_store (start s d e) (snd r)
   ∧ ∃ message,
       fst r = returned (render "signup" (locals_error (Some message))))
  ∨ (∃ username email password u,
       body !! "username" = Some username ∧ username ≠ []
       ∧ body !! "email" = Some email ∧ email ≠ []
       ∧ body !! "password" = Some password ∧ password ≠ []
       ∧ body !! "confirmPassword" = Some password
       ∧ Forall (λ v, UserDoc.email v ≠ email
                      ∧ UserDoc.username v ≠ username) (users d)
       ∧ calls_succeed 2 (faults e) = true
       ∧ UserDoc.username u = username
       ∧ UserDoc.email u = email
       ∧ db (snd r) = mkDb (users d ++ [u]) (reviews d)
       ∧ sess (snd r) = mkSession (Some (identity u))
       ∧ fst r = returned (redirect "/")).
Proof.
  unfold post_signup, same_store.
  destruct (falsy (body !! "username") || falsy (body !! "email")
            || falsy (body !! "password")
            || falsy (body !! "confirmPassword")) eqn:Hfields;
    [cbn; left; eauto 10|].
  apply orb_false_iff in Hfields as [Hfields _].
  apply orb_false_iff in Hfields as [Hfields Hp].
  apply orb_false_iff in Hfields as [Hu He].
  apply falsy_false in Hu as (c1 & username & Hu).
  apply falsy_false in He as (c2 & email & He).
  apply falsy_false in Hp as (c3 & password & Hp).
  destruct (bool_decide (body !! "password" = body !! "confirmPassword"))
    eqn:Hc; cbn [negb];
    [apply bool_decide_eq_true in Hc|cbn; left; eauto 10].
  rewrite Hu, He, Hp. cbn [str default].
  unfold User.findOne, User.save, User.new, start, store_call, calls_succeed.
  unfold_monad. cbn.
  destruct (List.find
              (User.by_email_or_username (c2 :: email) (c1 :: username))
              (users d)) eqn:Hfind;
    destruct (faults e) as [|[] [|[] fs]]; cbn; rewrite ?Hfind; cbn;
    try (left; by eauto 10).
  all: destruct (existsb
                   (User.by_email_or_username (c2 :: email) (c1 :: username))
                   (users d)); cbn; try (left; by eauto 10).
  all: right.
  all: exists (c1 :: username), (c2 :: email), (c3 :: password).
  all: eexists (UserDoc.mk _ _ _ _).
  all: rewrite <- Hc, Hp; repeat split; try done.
  all: apply find_none_Forall in Hfind.
  all: eapply Forall_impl; [exact Hfind|].
  all: intros v [H1 H2]%orb_false_iff.
  all: by apply bool_decide_eq_false in H1, H2.
Qed.

(** X5: the signup handler adds a user, writes the session, or redirects
    to the feed, only when the four fields are filled in, the two
    passwords are equal, no stored user has the submitted email or the
    submitted username, and both calls to the store succeeded. *)
Theorem post_signup_only_fresh (e : Env) (body : gmap string JSString)
    (s : Session) (d : Db) :
  let r := post_signup e body (start s d e) in
  fst r = returned (redirect "/")
  ∨ users (db (snd r)) ≠ users d
  ∨ sess (snd r) ≠ s →
  ∃ username email password,
    body !! "username" = Some username ∧ username ≠ []
    ∧ body !! "email" = Some email ∧ email ≠ []
    ∧ body !! "password" = Some password ∧ password ≠ []
    ∧ body !! "confirmPassword" = Some password
    ∧ Forall (λ u, UserDoc.email u ≠ email ∧ UserDoc.username u ≠ username)
        (users d)
    ∧ calls_succeed 2 (faults e) = true.
Proof.
  cbn zeta. intros Hwrites.
  destruct (post_signup_cases e body s d)
    as [((Hdb & Hs & _) & (message & Hr))
       |(username & email & password & u & Hrest)].
  - cbn in Hdb, Hs.
    destruct Hwrites as [Hw|[Hw|Hw]];
      [congruence|destruct Hw; by rewrite Hdb|by destruct Hw].
  - destruct Hrest as (H1 & H2 & H3 & H4 & H5 & H6 & H7 & H8 & H9 & _).
    by exists username, email, password.
Qed.

(** ** Reviews *)

Lemma in_range_passes (n : JSNumber) :
  in_range n = true → js_lt n (Num 1) || js_gt n (Num 5) = false.
Proof.
  unfold in_range, js_gt, js_lt. destruct n as [|q| |]; try done.
  intros [H1 H5]%andb_true_iff. by rewrite H1, H5.
Qed.

(** The two ways a submission ends. *)
Lemma post_reviews_new_cases (e : Env) (body : gmap string JSString)
    (s : Session) (d : Db) :
  let r := post_reviews_new e body (start s d e) in
  (same_store (start s d e) (snd r)
   ∧ (fst r = returned (redirect "/login")
      ∨ ∃ message,
          fst r = returned (render "new" (locals_error (Some message)))))
  ∨ (∃ o rating comment,
       user s = Some o
       ∧ body !! "rating" = Some rating
       ∧ body !! "comment" = Some comment
       ∧ in_range (ToNumber rating) = true
       ∧ integral (ToNumber rating) = true
       ∧ trim comment ≠ []
       ∧ call_fails (faults e) = false
       ∧ db (snd r)
         = mkDb (users d)
             (reviews d ++ [ReviewDoc.mk (fresh_id e) (js_get o "id")
                              (ToNumber rating) (trim comment) (now e)])
       ∧ sess (snd r) = s
       ∧ fst r = returned (redirect "/")).
Proof.
  unfold post_reviews_new, same_store, start. unfold_monad. cbn.
  destruct (user s) as [o|] eqn:Ho; [|left; by eauto 10].
  destruct (body !! "rating") as [[|c1 rating]|] eqn:Hr; cbn;
    try (left; by eauto 10).
  destruct (body !! "comment") as [[|c2 comment]|] eqn:Hc; cbn;
    try (left; by eauto 10).
  destruct (js_lt (ToNumber (c1 :: rating)) (Num 1)
            || js_gt (ToNumber (c1 :: rating)) (Num 5)); cbn;
    try (left; by eauto 10).
  unfold Review.save. rewrite validate_new.
  destruct (in_range (ToNumber (c1 :: rating))) eqn:Hrange; cbn;
    try (left; by eauto 10).
  destruct (integral (ToNumber (c1 :: rating))) eqn:Hint; cbn;
    try (left; by eauto 10).
  destruct (bool_decide (trim (c2 :: comment) = [])) eqn:Htrim; cbn;
    try (left; by eauto 10).
  apply bool_decide_eq_false in Htrim.
  unfold store_call, Review.new. unfold_monad. cbn.
  destruct (faults e) as [|[] fs]; cbn; try (left; by eauto 10).
  all: right; exists o, (c1 :: rating), (c2 :: comment); by repeat split.
Qed.

(** X8: a logged-in client who submits a rating that is a whole number
    from 1 to 5 and a comment with something in it besides white space
    gets the review stored, provided the call to the store succeeds: the review
    carries the id of the session identity as its user, the rating as a
    number, the comment trimmed and the time of the request, and the
    answer is the redirect to the feed. When the call fails the form
    comes back with the save-error message and nothing is stored. The
    users and the session are untouched either way. *)
Theorem post_reviews_new_accepts (e : Env) (body : gmap string JSString)
    (o : JSObject) (rating comment : JSString) (q : Q)
    (s : Session) (d : Db) :
  user s = Some o →
  body !! "rating" = Some rating → rating ≠ [] →
  body !! "comment" = Some comment →
  ToNumber rating = Num q → is_integer q = true →
  (1 <= q)%Q → (q <= 5)%Q →
  trim comment ≠ [] →
  let r := post_reviews_new e body (start s d e) in
  users (db (snd r)) = users d
  ∧ sess (snd r) = s
  ∧ if call_fails (faults e)
    then fst r = returned (render "new"
                   (locals_error (Some "리뷰 작성 중 오류가 발생했습니다.")))
         ∧ reviews (db (snd r)) = reviews d
    else fst r = returned (redirect "/")
         ∧ reviews (db (snd r))
           = (reviews d ++ [ReviewDoc.mk (fresh_id e) (js_get o "id")
                              (Num q) (trim comment) (now e)])%list.
Proof.
  intros Ho Hr Hrn Hc Hq Hint H1 H5 Htrim.
  assert (in_range (ToNumber rating) = true) as Hrange.
  { rewrite Hq. unfold in_range. apply andb_true_iff.
    by rewrite !Qle_bool_iff. }
  assert (integral (ToNumber rating) = true) as Hwhole
    by (by rewrite Hq).
  unfold post_reviews_new, start. unfold_monad. cbn.
  rewrite Ho, Hr, Hc.
  destruct rating as [|c1 rating]; [done|].
  destruct comment as [|c2 comment]; [by destruct Htrim|].
  cbn. rewrite (in_range_passes _ Hrange).
  unfold Review.save. rewrite validate_new, Hrange, Hwhole.
  rewrite bool_decide_eq_false_2 by done. cbn.
  unfold store_call, Review.new. unfold_monad. cbn. rewrite Hq.
  destruct (faults e) as [|[] fs]; cbn; done.
Qed.

(** X9: when a stored review has the identifier of the request and the
    store answers, the detail page renders the first stored review with
    that identifier; its author is a stored user whose id the review
    carries, or none when no stored user has that id. Nothing is
    changed. *)
Theorem get_reviews_id_found (reviewId : JSString) (r : ReviewDoc.t)
    (s : Session) (d : Db) (e : Env) :
  r ∈ reviews d → ReviewDoc._id r = reviewId →
  call_fails (faults e) = false →
  let res := get_reviews_id reviewId (start s d e) in
  same_store (start s d e) (snd res)
  ∧ ∃ shown author,
      fst res = returned (render "detail"
                  (locals_review (ReviewDoc.mk_populated shown author)))
      ∧ List.find (λ x, bool_decide (ReviewDoc._id x = reviewId)) (reviews d)
        = Some shown
      ∧ shown ∈ reviews d
      ∧ ReviewDoc._id shown = reviewId
      ∧ (∀ u, author = Some u →
              u ∈ users d ∧ ReviewDoc.user shown = Some (UserDoc._id u))
      ∧ (owned d shown → is_Some author).
Proof.
  intros Hin Hid Hok.
  destruct (find_some_match
              (λ x, bool_decide (ReviewDoc._id x = reviewId)) (reviews d) r)
    as [shown Hfind]; [done|by apply bool_decide_eq_true_2|].
  split; [apply get_reviews_id_same|].
  exists shown, (ReviewDoc.author (Review.populate (users d) shown)).
  split; [|split; [done|]].
  - assert (existsb (λ x, bool_decide (ReviewDoc._id x = reviewId))
              (reviews d) = true) as Hstored.
    { apply existsb_exists. exists r.
      split; [by apply list_elem_of_In|by apply bool_decide_eq_true_2]. }
    unfold get_reviews_id, Review.findById_populate, Review.is_ObjectId,
      start, store_call.
    unfold_monad. cbn. rewrite Hstored, orb_true_r.
    destruct (faults e) as [|[] fs]; try discriminate Hok; cbn;
      by rewrite Hfind.
  - apply find_some in Hfind as [Hshown Hq].
    apply bool_decide_eq_true in Hq. apply list_elem_of_In in Hshown.
    split; [done|]. split; [done|]. split.
    + intros u Hu. unfold Review.populate in Hu. cbn in Hu.
      destruct (ReviewDoc.user shown) as [i|]; [|done]. cbn in Hu.
      apply find_some in Hu as [Hu1 Hu2].
      apply bool_decide_eq_true in Hu2. apply list_elem_of_In in Hu1.
      by rewrite Hu2.
    + intros (u & Hu & Hown). unfold Review.populate. cbn.
      rewrite Hown. cbn.
      apply (find_some_match _ _ u Hu). by apply bool_decide_eq_true_2.
Qed.

(** X10: when the call to the store fails, the home page and the detail
    page each answer with their own load-error text, and nothing is
    changed. *)
Theorem load_errors_are_pages (reviewId : JSString)
    (s : Session) (d : Db) (e : Env) :
  call_fails (faults e) = true →
  fst (get_home (start s d e))
  = returned (send "리뷰 목록을 불러오는 중 오류가 발생했습니다.")
  ∧ same_store (start s d e) (snd (get_home (start s d e)))
  ∧ fst (get_reviews_id reviewId (start s d e))
    = returned (send "리뷰 상세 정보를 불러오는 중 오류가 발생했습니다.")
  ∧ same_store (start s d e) (snd (get_reviews_id reviewId (start s d e))).
Proof.
  intros Hfail.
  split; [|split; [apply get_home_same|split; [|apply get_reviews_id_same]]].
  - unfold get_home, Review.find_populate_sort, start, store_call.
    unfold_monad. cbn.
    by destruct (faults e) as [|[] fs]; try discriminate Hfail.
  - unfold get_reviews_id, Review.findById_populate, start, store_call.
    unfold_monad. cbn.
    destruct (Review.is_ObjectId (reviews d) reviewId); cbn; [|done].
    by destruct (faults e) as [|[] fs]; try discriminate Hfail.
Qed.

(** ** What every request keeps *)

Lemma consistent_ext (st st' : St) :
  db st' = db st → sess st' = sess st → consistent st → consistent st'.
Proof.
  unfold consistent, logged_in_as_stored. by intros -> ->.
Qed.

Lemma owned_more_users (d : Db) (us : list UserDoc.t)
    (rs : list ReviewDoc.t) (r : ReviewDoc.t) :
  owned d r → owned (mkDb (users d ++ us) rs) r.
Proof.
  intros (u & Hu & Hr). exists u. split; [|done].
  apply elem_of_app. by left.
Qed.

Lemma unique_users_add (d : Db) (u : UserDoc.t) (rs : list ReviewDoc.t) :
  unique_users d →
  Forall (λ v, UserDoc.email v ≠ UserDoc.email u
               ∧ UserDoc.username v ≠ UserDoc.username u) (users d) →
  unique_users (mkDb (users d ++ [u]) rs).
Proof.
  intros [He Hu] Hfresh. rewrite Forall_forall in Hfresh.
  unfold unique_users. cbn. rewrite !fmap_app. cbn.
  split; apply NoDup_app; (split; [done|]); (split; [|apply NoDup_singleton]).
  all: intros x (v & -> & Hv)%list_elem_of_fmap Hx%list_elem_of_singleton.
  all: by destruct (Hfresh v Hv).
Qed.

(** X11: every request keeps the collections and the session fitting
    together. When, before the request, no two users share an email or a
    username, every review has a comment without white space at its ends
    and belongs to a stored user, and the session holds no identity or
    the one of a stored user, then all of this holds after the request as
    well, and in the state the next request of the client starts in. *)
Theorem app_keeps_consistent (req : Request) (e : Env)
    (s : Session) (d : Db) :
  consistent (start s d e) →
  consistent (snd (app req e (start s d e)))
  ∧ ∀ penv issued tls e',
      consistent
        (follow_up penv issued tls (snd (app req e (start s d e))) e').
Proof.
  intros Hc.
  assert (consistent (snd (app req e (start s d e)))) as Hafter.
  { destruct (app_effects req e (start s d e)) as [->| ->]; [done|].
    destruct (routes_effects req e (start s d e))
      as [(_ & _ & ->)|[(_ & _ & ->)|[(_ & _ & ->)|[(_ & _ & ->)|Hs]]]].
    - destruct (post_signup_cases e (body req) s d)
        as [((Hdb & Hs & _) & _)
           |(username & email & password & u & _ & _ & _ & _ & _ & _ & _
             & Hfresh & _ & Hun & Hem & Hdb & Hs & _)];
        [by apply (consistent_ext (start s d e))|].
      destruct Hc as (Huniq & Hok & Hown & _).
      unfold consistent, logged_in_as_stored. rewrite Hdb, Hs. cbn in *.
      split; [|split; [done|split]].
      + apply unique_users_add; [done|]. by rewrite Hun, Hem.
      + eapply Forall_impl; [exact Hown|].
        intros r. apply owned_more_users.
      + exists u. split; [|done]. apply elem_of_app. right.
        by apply list_elem_of_singleton.
    - destruct (post_login_cases (body req) s d e)
        as [((Hdb & Hs & _) & _)
           |(email & password & u & _ & _ & Hin & _ & _ & Hdb & Hs & _)];
        [by apply (consistent_ext (start s d e))|].
      destruct Hc as (Huniq & Hok & Hown & _).
      unfold consistent, logged_in_as_stored. rewrite Hdb, Hs. cbn in *.
      split; [done|split; [done|split; [done|by exists u]]].
    - destruct (post_reviews_new_cases e (body req) s d)
        as [((Hdb & Hs & _) & _)
           |(o & rating & comment & Ho & _ & _ & Hrange & _ & Htrim & _
             & Hdb & Hs & _)];
        [by apply (consistent_ext (start s d e))|].
      destruct Hc as (Huniq & Hok & Hown & Hlog).
      unfold consistent, logged_in_as_stored in *.
      rewrite Hdb, Hs. cbn in *. rewrite Ho in Hlog |- *.
      destruct Hlog as (u & Hu & ->).
      split; [done|]. split; [|split; [|by exists u]].
      + apply Forall_app. split; [done|]. apply Forall_singleton.
        apply trim_is_trimmed.
      + apply Forall_app. split.
        * eapply Forall_impl; [exact Hown|]. by intros r (v & Hv & Hr); exists v.
        * apply Forall_singleton. by exists u.
    - destruct (get_logout_effects (start s d e)) as [Hdb Hs].
      by apply (consistent_ext (start s d e)).
    - destruct Hs as (Hdb & Hs & _).
      by apply (consistent_ext (start s d e)). }
  split; [exact Hafter|]. intros penv issued tls e'.
  destruct Hafter as (Huniq & Hok & Hown & Hlog).
  unfold follow_up, session_after, consistent, logged_in_as_stored in *.
  destruct (cookie_returns penv issued tls e'); [|done].
  destruct (destroyed (snd (app req e (start s d e)))); cbn; done.
Qed.

(** ** From one request to the next *)





(** X13: a form posted back with the token its page was rendered with, and
    with the cookie that holds the secret of that page, passes the guard
    and reaches its route, as long as the token generator verifies its own
    tokens and makes no empty one. The user the views are given is the
    user of the session. *)
Theorem page_token_passes_the_guard (page req : Request) (e0 e : Env)
    (s0 : Session) (st : St) :
  let secret := csrf_secret page e0 in
  let locals := locals_middleware page e0 s0 in
  tokens_verify secret (tokens_create secret) = true →
  tokens_create secret ≠ [] →
  cookies req !! "_csrf" = Some secret →
  body req !! "_csrf" = Some (csrfToken locals) →
  app req e st = routes req e st
  ∧ currentUser locals = user s0.
Proof.
  cbn zeta. unfold locals_middleware. cbn [csrfToken currentUser].
  intros Hverify Hne Hcookie Hbody. split; [|done].
  unfold app, csrf, csrf_verify, csrf_value.
  rewrite Hbody.
  destruct (tokens_create (csrf_secret page e0)) as [|c token] eqn:Htoken;
    [done|].
  unfold csrf_secret at 1. rewrite Hcookie. cbn.
  rewrite Hverify. cbn. by rewrite andb_false_r.
Qed.

End Further.

(** * The further properties at work *)

(** X1 at work: a comment with nothing to trim. *)
Lemma trim_spec_witness : trim (js "ok") = js "ok".
Proof.
  apply (proj2 (proj2 (trim_spec (js "ok")))).
  split; intros c Hc; vm_compute in Hc; injection Hc as <-; reflexivity.
Defined.

(** X2 at work: a request that adds a user, with its path in capitals. *)
Lemma app_writes_only_where_expected_witness :
  let req := request POST ["SIGNUP"]
               [("username", "bob"); ("email", "b@x.com");
                ("password", "pw2"); ("confirmPassword", "pw2");
                ("_csrf", "s3cr3t")] in
  method req = POST ∧ route_is ["signup"] req.
Proof.
  intros req.
  apply (proj1 (@app_writes_only_where_expected sample_platform req quiet
                  (start (mkSession None) one_user quiet))).
  vm_compute. discriminate.
Defined.

(** X3 at work: a signup form with one field. *)
Lemma incomplete_forms_stop_before_the_store_witness :
  let st := start (mkSession None) one_user quiet in
  @post_signup sample_platform quiet (form [("username", "bob")]) st
  = (returned (render "signup"
                 (locals_error (Some "모든 필드를 입력해주세요."))), st).
Proof.
  intros st.
  apply (proj1 (@incomplete_forms_stop_before_the_store sample_platform
                  quiet (form [("username", "bob")]) st)).
  vm_compute. reflexivity.
Defined.

(** X4 at work: bob signs up beside ann. *)
Lemma post_signup_fresh_witness :
  let r := @post_signup sample_platform quiet bob_form
             (start (mkSession None) one_user quiet) in
  fst r = returned (redirect "/")
  ∧ (∃ u, users (db (snd r)) = (users one_user ++ [u])%list
          ∧ UserDoc._id u = fresh_id quiet
          ∧ UserDoc.username u = js "bob"
          ∧ UserDoc.email u = js "b@x.com"
          ∧ user (sess (snd r)) = Some (identity u))
  ∧ reviews (db (snd r)) = reviews one_user.
Proof.
  apply (@post_signup_fresh sample_platform quiet bob_form
           (js "bob") (js "b@x.com") (js "pw2") (mkSession None) one_user).
  - vm_compute. reflexivity.
  - vm_compute. discriminate.
  - vm_compute. reflexivity.
  - vm_compute. discriminate.
  - vm_compute. reflexivity.
  - vm_compute. discriminate.
  - vm_compute. reflexivity.
  - repeat constructor; intros Heq; vm_compute in Heq; discriminate Heq.
Defined.

(** X5 at work: the signup of bob went through, so its form was in
    order. *)
Lemma post_signup_only_fresh_witness :
  ∃ username email password,
    bob_form !! "username" = Some username ∧ username ≠ []
    ∧ bob_form !! "email" = Some email ∧ email ≠ []
    ∧ bob_form !! "password" = Some password ∧ password ≠ []
    ∧ bob_form !! "confirmPassword" = Some password
    ∧ Forall (λ u, UserDoc.email u ≠ email ∧ UserDoc.username u ≠ username)
        (users one_user)
    ∧ calls_succeed 2 (faults quiet) = true.
Proof.
  apply (@post_signup_only_fresh sample_platform quiet bob_form
           (mkSession None) one_user).
  left. vm_compute. reflexivity.
Defined.

(** X6 at work: ann logs in. *)
Lemma post_login_valid_witness :
  let r := @post_login sample_platform
             (form [("email", "a@x.com"); ("password", "pw1")])
             (start (mkSession None) one_user quiet) in
  db (snd r) = one_user
  ∧ fst r = returned (redirect "/")
  ∧ user (sess (snd r)) = Some (identity ann)
  ∧ UserDoc.email ann = js "a@x.com".
Proof.
  apply (@post_login_valid sample_platform
           (form [("email", "a@x.com"); ("password", "pw1")])
           (js "a@x.com") (js "pw1") ann (mkSession None) one_user quiet).
  - vm_compute. reflexivity.
  - vm_compute. discriminate.
  - vm_compute. reflexivity.
  - vm_compute. discriminate.
  - vm_compute. reflexivity.
  - vm_compute. reflexivity.
Defined.


(** X8 at work: ann gives four stars. *)
Lemma post_reviews_new_accepts_witness :
  let r := @post_reviews_new sample_platform quiet
             (form [("rating", "4"); ("comment", " nice ")])
             (start ann_session one_user quiet) in
  users (db (snd r)) = users one_user
  ∧ sess (snd r) = ann_session
  ∧ fst r = returned (redirect "/")
  ∧ reviews (db (snd r))
    = (reviews one_user
       ++ [ReviewDoc.mk (fresh_id quiet) (js_get (identity ann) "id")
             (Num (inject_Z 4)) (trim (js " nice ")) (now quiet)])%list.
Proof.
  apply (@post_reviews_new_accepts sample_platform quiet
           (form [("rating", "4"); ("comment", " nice ")])
           (identity ann) (js "4") (js " nice ") (inject_Z 4)
           ann_session one_user).
  - reflexivity.
  - vm_compute. reflexivity.
  - vm_compute. discriminate.
  - vm_compute. reflexivity.
  - vm_compute. reflexivity.
  - vm_compute. reflexivity.
  - vm_compute. discriminate.
  - vm_compute. discriminate.
  - vm_compute. discriminate.
Defined.

(** X9 at work: the page of the newer of two reviews. *)
Lemma get_reviews_id_found_witness :
  let res := @get_reviews_id sample_platform newer_id
               (start ann_session two_reviews quiet) in
  same_store (start ann_session two_reviews quiet) (snd res)
  ∧ ∃ shown author,
      fst res = returned (render "detail"
                  (locals_review (ReviewDoc.mk_populated shown author)))
      ∧ List.find (λ x, bool_decide (ReviewDoc._id x = newer_id))
          (reviews two_reviews) = Some shown
      ∧ shown ∈ reviews two_reviews
      ∧ ReviewDoc._id shown = newer_id
      ∧ (∀ u, author = Some u →
              u ∈ users two_reviews
              ∧ ReviewDoc.user shown = Some (UserDoc._id u))
      ∧ (owned two_reviews shown → is_Some author).
Proof.
  apply (@get_reviews_id_found sample_platform newer_id newer
           ann_session two_reviews quiet).
  - vm_compute. right. left.
  - reflexivity.
  - reflexivity.
Defined.

(** X10 at work: the store is down. *)
Lemma load_errors_are_pages_witness :
  fst (get_home (start ann_session two_reviews failing))
  = returned (send "리뷰 목록을 불러오는 중 오류가 발생했습니다.").
Proof.
  apply (@load_errors_are_pages sample_platform older_id ann_session
           two_reviews failing).
  reflexivity.
Defined.

(** X11 at work: a site with one user and one review of hers. *)
Lemma app_keeps_consistent_witness :
  let req := request POST ["reviews"; "new"]
               [("rating", "5"); ("comment", "again"); ("_csrf", "s3cr3t")] in
  consistent (snd (@app sample_platform req quiet
                     (start ann_session one_review quiet))).
Proof.
  intros req.
  apply (@app_keeps_consistent sample_platform req quiet
           ann_session one_review).
  split; [|split; [|split]].
  - split; cbn; apply NoDup_singleton.
  - apply Forall_singleton.
    split; intros c Hc; vm_compute in Hc; injection Hc as <-; reflexivity.
  - apply Forall_singleton. exists ann. split; [left|reflexivity].
  - exists ann. split; [left|reflexivity].
Defined.


(** X13 at work: the signup form comes back with its token. *)
Lemma page_token_passes_the_guard_witness :
  let page := request GET ["signup"] [] in
  let token := csrfToken (@locals_middleware sample_platform page quiet
                            (mkSession None)) in
  let req := mkRequest POST [js "signup"] (<["_csrf" := token]> bob_form)
               ∅ ∅ {["_csrf" := csrf_secret page quiet]} in
  let st := start (mkSession None) one_user quiet in
  @app sample_platform req quiet st = @routes sample_platform req quiet st.
Proof.
  intros page token req st.
  apply (@page_token_passes_the_guard sample_platform page req quiet quiet
           (mkSession None) st).
  - vm_compute. reflexivity.
  - vm_compute. discriminate.
  - vm_compute. reflexivity.
  - vm_compute. reflexivity.
Defined.
